(** * ProxmoxBackupOrchestrator: a shallow embedding of [orchestrator.py]

    The orchestrator reads a YAML configuration, turns a five-field
    cron-like string into one recurring job, and on every firing runs
    [vzdump] over ssh on each configured node in turn.

    The embedding follows the Python source function by function:
    - Python values coming out of [yaml.safe_load] are the inductive
      [value]; a [dict] is an association list in insertion order;
    - exceptions are data ([exception], [base_exception]) and every
      function that can raise lives in a state-and-error monad [M];
    - the outside world (clock, remote processes, signals) is an
      [environment] of oracles, and everything the program does to the
      world (log records, spawned commands, sleeps) is appended to a
      trace of [event]s.

    Strings are [string]s of the standard library; a character stands for
    the code point of the same number (0..255).  YAML floats are not
    modelled. *)

From Stdlib Require Import List String Ascii ZArith NArith Bool Lia Arith.
From Stdlib Require Import DecimalString.
Import ListNotations.

Local Open Scope string_scope.
Local Open Scope Z_scope.

Set Implicit Arguments.
Set Warnings "-register-all".

(** ** Python string primitives *)

Module PyStr.

(** [str.isspace] on one character, restricted to code points below 256:
    TAB..CR, FS..US, SPACE, NEL and NBSP. *)
Definition is_space (c : ascii) : bool :=
  match N_of_ascii c with
  | 9 | 10 | 11 | 12 | 13 | 28 | 29 | 30 | 31 | 32 | 133 | 160 => true
  | _ => false
  end%N.

(** [s.split()] with no argument: maximal runs of non-whitespace.
    [cur] is the token being read; [None] between tokens. *)
Fixpoint split_from (cur : option string) (s : string) : list string :=
  match s with
  | EmptyString =>
      match cur with Some w => [w] | None => [] end
  | String c rest =>
      if is_space c then
        match cur with
        | Some w => w :: split_from None rest
        | None => split_from None rest
        end
      else
        match cur with
        | Some w => split_from (Some (w ++ String c EmptyString)) rest
        | None => split_from (Some (String c EmptyString)) rest
        end
  end.

Definition split (s : string) : list string := split_from None s.

(** [sep.join(parts)] for parts already known to be strings. *)
Fixpoint join (sep : string) (parts : list string) : string :=
  match parts with
  | [] => ""
  | [p] => p
  | p :: rest => p ++ sep ++ join sep rest
  end.

Fixpoint zeros (n : nat) : string :=
  match n with
  | O => ""
  | S k => String "0" (zeros k)
  end.

(** [s.zfill(width)]: left-pad with zeros, after a leading sign. *)
Definition zfill (width : nat) (s : string) : string :=
  let n := String.length s in
  if (width <=? n)%nat then s
  else
    match s with
    | String c rest =>
        if (Ascii.eqb c "+" || Ascii.eqb c "-")%bool
        then String c (zeros (width - n) ++ rest)
        else zeros (width - n) ++ s
    | EmptyString => zeros (width - n)
    end.

(** [str(n)] for an integer. *)
Definition of_Z (z : Z) : string := NilZero.string_of_int (Z.to_int z).

Definition digit_of (c : ascii) : option Z :=
  let n := N_of_ascii c in
  if ((48 <=? n) && (n <=? 57))%N then Some (Z.of_N n - 48) else None.

(** Value of a run of decimal digits, most significant first. *)
Fixpoint digits_from (acc : Z) (s : string) : option Z :=
  match s with
  | EmptyString => Some acc
  | String c rest =>
      match digit_of c with
      | Some d => digits_from (10 * acc + d) rest
      | None => None
      end
  end.

Definition digits (s : string) : option Z :=
  match s with
  | EmptyString => None
  | _ => digits_from 0 s
  end.

(** [needle in s] for strings. *)
Fixpoint contains (needle s : string) : bool :=
  if String.prefix needle s then true
  else match s with
       | EmptyString => false
       | String _ rest => contains needle rest
       end.

Fixpoint chars (s : string) : list string :=
  match s with
  | EmptyString => []
  | String c rest => String c EmptyString :: chars rest
  end.

(** Split at every occurrence of the character [sep] ([s.split(sep)]). *)
Fixpoint split_on (sep : ascii) (s : string) : list string :=
  match s with
  | EmptyString => [""]
  | String c rest =>
      if Ascii.eqb c sep then "" :: split_on sep rest
      else match split_on sep rest with
           | w :: ws => String c w :: ws
           | [] => [String c EmptyString]
           end
  end.

End PyStr.

(** ** Python values *)

(** What [yaml.safe_load] can return (floats left out).  A [dict] keeps
    its keys in insertion order; keys are strings. *)
Inductive value : Type :=
| VNone
| VBool (b : bool)
| VInt (z : Z)
| VStr (s : string)
| VList (items : list value)
| VDict (entries : list (string * value)).

Definition dict := list (string * value).

Fixpoint dict_get (k : string) (d : dict) : option value :=
  match d with
  | [] => None
  | (k', v) :: rest => if String.eqb k k' then Some v else dict_get k rest
  end.

Definition dict_has (k : string) (d : dict) : bool :=
  match dict_get k d with Some _ => true | None => false end.

Module PyRepr.

Definition hex_digit (n : N) : ascii :=
  ascii_of_N (if (n <? 10)%N then 48 + n else 87 + n)%N.

Definition printable (n : N) : bool :=
  ((32 <=? n) && (n <? 127) || (161 <=? n) && negb (n =? 173))%N%bool.

(** One character inside a quoted literal delimited by [q]. *)
Definition escape (q c : ascii) : string :=
  let n := N_of_ascii c in
  if (Ascii.eqb c q || Ascii.eqb c "\")%bool then String "\" (String c "")
  else if (n =? 9)%N then "\t"
  else if (n =? 10)%N then "\n"
  else if (n =? 13)%N then "\r"
  else if printable n then String c ""
  else String "\" (String "x"
         (String (hex_digit (n / 16)) (String (hex_digit (n mod 16)) ""))).

Fixpoint escape_all (q : ascii) (s : string) : string :=
  match s with
  | EmptyString => ""
  | String c rest => escape q c ++ escape_all q rest
  end.

(** [repr] of a string: single quotes unless the text has a single
    quote and no double quote. *)
Definition dquote : ascii := ascii_of_N 34.

Definition of_string (s : string) : string :=
  let q := if (PyStr.contains "'" s
               && negb (PyStr.contains (String dquote "") s))%bool
           then dquote else "'"%char in
  String q (escape_all q s ++ String q "").

Fixpoint of_value (v : value) : string :=
  match v with
  | VNone => "None"
  | VBool true => "True"
  | VBool false => "False"
  | VInt z => PyStr.of_Z z
  | VStr s => of_string s
  | VList l =>
      "[" ++ (fix items (l : list value) : string :=
                match l with
                | [] => ""
                | x :: rest =>
                    match rest with
                    | [] => of_value x
                    | _ => of_value x ++ ", " ++ items rest
                    end
                end) l ++ "]"
  | VDict d =>
      "{" ++ (fix entries (d : list (string * value)) : string :=
                match d with
                | [] => ""
                | (k, x) :: rest =>
                    match rest with
                    | [] => of_string k ++ ": " ++ of_value x
                    | _ => of_string k ++ ": " ++ of_value x ++ ", "
                             ++ entries rest
                    end
                end) d ++ "}"
  end.

End PyRepr.

(** [str(v)], also what an f-string field produces. *)
Definition py_str (v : value) : string :=
  match v with
  | VStr s => s
  | _ => PyRepr.of_value v
  end.

(** Truth value of [v] in a condition. *)
Definition py_truthy (v : value) : bool :=
  match v with
  | VNone => false
  | VBool b => b
  | VInt z => negb (z =? 0)
  | VStr s => negb (String.eqb s "")
  | VList l => match l with [] => false | _ => true end
  | VDict d => match d with [] => false | _ => true end
  end.

(** ** Exceptions and results *)

(** Classes below [Exception] that the program raises, names or logs.
    [InvalidTimeValue] is the scheduling library's rejection of a time
    string; [OtherError] stands for every remaining class. *)
Inductive exception : Type :=
| KeyError (key : string)
| TypeError
| AttributeError
| ValueError (msg : string)
| FileNotFoundError
| CalledProcessError (returncode : Z) (stdout stderr : string)
| TimeoutExpired
| YAMLError
| InvalidTimeValue
| OtherError (detail : string).

(** [BaseException]: ordinary exceptions, the interrupt signal, and the
    exception [exit(code)] raises. *)
Inductive base_exception : Type :=
| Exc (e : exception)
| KeyboardInterrupt
| SystemExit (code : Z).

(** What the outside world can raise inside a call: a fault (some
    [Exception]) or the user's interrupt.  [SystemExit] comes only from
    the program's own [exit] calls. *)
Inductive signal : Type :=
| Fault (e : exception)
| Interrupt.

Definition raised_by (s : signal) : base_exception :=
  match s with
  | Fault e => Exc e
  | Interrupt => KeyboardInterrupt
  end.

Inductive result (A : Type) : Type :=
| Ok (a : A)
| Raise (b : base_exception).

Arguments Ok {A} a.
Arguments Raise {A} b.

Definition rbind {A B} (r : result A) (k : A -> result B) : result B :=
  match r with
  | Ok a => k a
  | Raise b => Raise b
  end.

Declare Scope py_scope.
Delimit Scope py_scope with py.
Open Scope py_scope.

Notation "'let?' x ':=' r 'in' k" := (rbind r (fun x => k))
  (at level 10, x name, r at level 100, k at level 200) : py_scope.

(** ** Operations on values that can raise *)

(** [v[k]] with a string key. *)
Definition subscript (v : value) (k : string) : result value :=
  match v with
  | VDict d =>
      match dict_get k d with
      | Some x => Ok x
      | None => Raise (Exc (KeyError k))
      end
  | _ => Raise (Exc TypeError)
  end.

(** [k in v] with a string key. *)
Definition py_in (k : string) (v : value) : result bool :=
  match v with
  | VDict d => Ok (dict_has k d)
  | VList l =>
      Ok (existsb (fun x => match x with VStr s => String.eqb s k | _ => false end) l)
  | VStr s => Ok (PyStr.contains k s)
  | _ => Raise (Exc TypeError)
  end.

(** [v.get(k, default)]. *)
Definition py_get (v : value) (k : string) (default : value) : result value :=
  match v with
  | VDict d =>
      Ok (match dict_get k d with Some x => x | None => default end)
  | _ => Raise (Exc AttributeError)
  end.

(** The items a [for] loop or [map] draws from [v]. *)
Definition py_iter (v : value) : result (list value) :=
  match v with
  | VList l => Ok l
  | VDict d => Ok (map (fun kv => VStr (fst kv)) d)
  | VStr s => Ok (map VStr (PyStr.chars s))
  | _ => Raise (Exc TypeError)
  end.

(** [v.split()]. *)
Definition py_split (v : value) : result (list string) :=
  match v with
  | VStr s => Ok (PyStr.split s)
  | _ => Raise (Exc AttributeError)
  end.

(** The strings of a list whose items must all be [str], as [str.join]
    requires. *)
Fixpoint as_strings (l : list value) : result (list string) :=
  match l with
  | [] => Ok []
  | VStr s :: rest => let? ss := as_strings rest in Ok (s :: ss)
  | _ :: _ => Raise (Exc TypeError)
  end.

Definition py_join (sep : string) (l : list value) : result string :=
  let? ss := as_strings l in Ok (PyStr.join sep ss).

(** ** The world: oracles, events, state *)

(** Logging levels.  The handlers are configured at [INFO], so a [DEBUG]
    record is dropped by them; the trace keeps the call all the same. *)
Inductive level : Type := DEBUG | INFO | WARNING | ERROR.

(** One constructor per logging call of the source, carrying the values
    its message interpolates. *)
Inductive message : Type :=
| MConfigNotFound
| MYamlError
| MLoadUnexpected (e : exception)
| MConfigLoaded (config : string)
| MRunning (shortname fqdn : string)
| MCommand (line : string)
| MBackupDone (shortname output : string)
| MBackupError (shortname : string)
| MReturnCode (returncode : Z)
| MStdout (text : string)
| MStderr (text : string)
| MSshNotFound
| MTimeout (shortname : string)
| MUnexpectedVzdump (shortname : string) (e : exception)
| MCycleStart
| MNodeFailed (shortname : string)
| MCycleCompleted (duration : Z)
| MEveryMinute
| MHourly (minute : string)
| MDaily (hour minute : string)
| MInvalidSchedule (schedule : string) (e : exception)
| MStarted
| MPoll (now : Z)
| MInterrupted
| MMainLoopError (e : exception).

(** Everything the program does to the outside. *)
Inductive event : Type :=
| Log (lvl : level) (m : message)
| Spawn (command : list string) (timeout : Z)
| Sleep (seconds : Z).

(** How one [subprocess.run] turns out: the child exits after [elapsed]
    seconds with a return code and captured output, or the call itself
    is cut short by a fault (no ssh binary, ...) or an interrupt. *)
Inductive proc_outcome : Type :=
| Exits (elapsed : Z) (returncode : Z) (stdout stderr : string)
| Fails (s : signal).

Inductive load_outcome : Type :=
| Loaded (document : value)
| LoadFails (s : signal).

Inductive rule : Type :=
| EveryMinute
| HourlyAtMinute (minute : Z)
| DailyAt (hour minute : Z).

(** The oracles.  Each is indexed by how many calls of its kind came
    before.  [time_error_is_value_error] tells whether the installed
    scheduling library derives its time-format error from [ValueError]. *)
Record environment : Type := {
  read_config : load_outcome;
  clock : nat -> Z;
  process : nat -> proc_outcome;
  poll_signal : nat -> option signal;
  pending : nat -> bool;
  sleep_signal : nat -> option signal;
  time_error_is_value_error : bool
}.

(** The program's view of the world so far.  [jobs] is the scheduling
    library's registry: each job is a rule and the configuration its
    action [backup_job] is bound to. *)
Record state : Type := {
  trace : list event;
  clock_reads : nat;
  spawned : nat;
  polls : nat;
  sleeps : nat;
  jobs : list (rule * value)
}.

Definition initial : state :=
  {| trace := []; clock_reads := 0; spawned := 0; polls := 0; sleeps := 0;
     jobs := [] |}.

(** ** The state-and-exception monad *)

Definition M (A : Type) : Type := state -> state * result A.

Definition ret {A} (a : A) : M A := fun st => (st, Ok a).

Definition raise {A} (b : base_exception) : M A := fun st => (st, Raise b).

Definition bind {A B} (m : M A) (k : A -> M B) : M B :=
  fun st =>
    match m st with
    | (st', Ok a) => k a st'
    | (st', Raise b) => (st', Raise b)
    end.

Definition lift {A} (r : result A) : M A := fun st => (st, r).

Notation "x <- m ;; k" := (bind m (fun x => k))
  (at level 100, m at next level, right associativity) : py_scope.
Notation "m ;; k" := (bind m (fun _ => k))
  (at level 100, right associativity) : py_scope.

(** [try: body except ...]: [handler] answers [Some h] for an exception
    one of the clauses matches and [None] for one that passes through. *)
Definition try_except {A} (body : M A)
    (handler : base_exception -> option (M A)) : M A :=
  fun st =>
    match body st with
    | (st', Ok a) => (st', Ok a)
    | (st', Raise b) =>
        match handler b with
        | Some h => h st'
        | None => (st', Raise b)
        end
    end.

Definition emit (e : event) (st : state) : state :=
  {| trace := trace st ++ [e]; clock_reads := clock_reads st;
     spawned := spawned st; polls := polls st; sleeps := sleeps st;
     jobs := jobs st |}.

Definition log (lvl : level) (m : message) : M unit :=
  fun st => (emit (Log lvl m) st, Ok tt).

(** [exit(code)]. *)
Definition exit {A} (code : Z) : M A := raise (SystemExit code).

(** ** The scheduling library *)

(** The [schedule] package is not part of the repository; its job
    registry is the [jobs] field of the state. *)
Module Schedule.

(** An integer written in decimal, with an optional sign. *)
Definition to_int (s : string) : option Z :=
  match s with
  | String c rest =>
      if Ascii.eqb c "-" then option_map Z.opp (PyStr.digits rest)
      else if Ascii.eqb c "+" then PyStr.digits rest
      else PyStr.digits s
  | EmptyString => None
  end.

Definition in_range (lo hi : Z) (s : string) : option Z :=
  match to_int s with
  | Some n => if ((lo <=? n) && (n <=? hi))%bool then Some n else None
  | None => None
  end.

(** Modelled from the spec: the library's [every().hour.at(text)],
    which the repository calls and does not contain.  The text is
    [:MM]; the minute must be convertible to an integer within
    [0,59], otherwise the call fails with [InvalidTimeValue]. *)
Definition hour_at (text : string) : result rule :=
  match PyStr.split_on ":" text with
  | [EmptyString; mm] =>
      match in_range 0 59 mm with
      | Some m => Ok (HourlyAtMinute m)
      | None => Raise (Exc InvalidTimeValue)
      end
  | _ => Raise (Exc InvalidTimeValue)
  end.

(** Modelled from the spec: the library's [every().day.at(text)], which
    the repository calls and does not contain.  The text is [HH:MM];
    hour and minute must be convertible to integers within [0,23] and
    [0,59], otherwise the call fails with [InvalidTimeValue]. *)
Definition day_at (text : string) : result rule :=
  match PyStr.split_on ":" text with
  | [hh; mm] =>
      match in_range 0 23 hh, in_range 0 59 mm with
      | Some h, Some m => Ok (DailyAt h m)
      | _, _ => Raise (Exc InvalidTimeValue)
      end
  | _ => Raise (Exc InvalidTimeValue)
  end.

(** [job.do(backup_job, config)]: the job joins the registry. *)
Definition do (r : rule) (config : value) : M unit :=
  fun st =>
    ({| trace := trace st; clock_reads := clock_reads st;
        spawned := spawned st; polls := polls st; sleeps := sleeps st;
        jobs := jobs st ++ [(r, config)] |}, Ok tt).

End Schedule.

(** ** The program *)

Section Orchestrator.

Variable env : environment.

(** [datetime.now()], in seconds. *)
Definition now : M Z :=
  fun st =>
    ({| trace := trace st; clock_reads := S (clock_reads st);
        spawned := spawned st; polls := polls st; sleeps := sleeps st;
        jobs := jobs st |},
     Ok (clock env (clock_reads st))).

(** [time.sleep(seconds)]. *)
Definition sleep (seconds : Z) : M unit :=
  fun st =>
    let st' :=
      {| trace := trace st ++ [Sleep seconds];
         clock_reads := clock_reads st; spawned := spawned st;
         polls := polls st; sleeps := S (sleeps st); jobs := jobs st |} in
    match sleep_signal env (sleeps st) with
    | Some s => (st', Raise (raised_by s))
    | None => (st', Ok tt)
    end.

(** [subprocess.run(command, capture_output=True, text=True, check=True,
    timeout=timeout)]: returns the captured standard output.  A child
    still running when the timeout elapses raises [TimeoutExpired]; a
    non-zero return code raises [CalledProcessError] ([check=True]). *)
Definition subprocess_run (command : list string) (timeout : Z) : M string :=
  fun st =>
    let st' :=
      {| trace := trace st ++ [Spawn command timeout];
         clock_reads := clock_reads st; spawned := S (spawned st);
         polls := polls st; sleeps := sleeps st; jobs := jobs st |} in
    match process env (spawned st) with
    | Exits elapsed rc out err =>
        if timeout <? elapsed then (st', Raise (Exc TimeoutExpired))
        else if rc =? 0 then (st', Ok out)
        else (st', Raise (Exc (CalledProcessError rc out err)))
    | Fails s => (st', Raise (raised_by s))
    end.

(** *** [load_config] *)

Definition load_config : M value :=
  try_except
    (fun st =>
       match read_config env with
       | Loaded doc => (st, Ok doc)
       | LoadFails s => (st, Raise (raised_by s))
       end)
    (fun b =>
       match b with
       | Exc FileNotFoundError =>
           Some (log ERROR MConfigNotFound ;; exit 1)
       | Exc YAMLError =>
           Some (log ERROR MYamlError ;; exit 1)
       | Exc e =>
           Some (log ERROR (MLoadUnexpected e) ;; exit 1)
       | _ => None
       end).

(** *** [run_vzdump] *)

(** Lines 38-54: the list literal, evaluated left to right. *)
Definition ssh_command (node_config config : value) : result (list value) :=
  let? fqdn := subscript node_config "fqdn" in
  let? mailto := subscript config "mailto" in
  let? fleecing := subscript config "fleecing" in
  let? bwlimit := subscript config "bwlimit" in
  let? pbs_storage := subscript config "pbs_storage" in
  let? notes_template := subscript config "notes_template" in
  let? mailnotification := subscript config "mailnotification" in
  let? shortname := subscript node_config "shortname" in
  Ok [ VStr "/usr/bin/ssh";
       VStr "-p"; VStr "22";
       VStr "-o"; VStr "StrictHostKeyChecking=no";
       VStr "-o"; VStr "UserKnownHostsFile=/dev/null";
       VStr ("root@" ++ py_str fqdn);
       VStr "vzdump";
       VStr "--mode"; VStr "snapshot";
       VStr "--mailto"; mailto;
       VStr "--fleecing"; VStr (py_str fleecing);
       VStr "--bwlimit"; VStr (py_str bwlimit);
       VStr "--storage"; pbs_storage;
       VStr "--notes-template"; notes_template;
       VStr "--mailnotification"; mailnotification;
       VStr "--node"; shortname;
       VStr "--all"; VStr "1" ].

(** Lines 57-62. *)
Definition exclude_list (node_config config : value) : result value :=
  let? in_node := py_in "exclude_vms" node_config in
  if in_node then subscript node_config "exclude_vms"
  else
    let? in_config := py_in "exclude_vms" config in
    if in_config then subscript config "exclude_vms"
    else Ok (VList []).

(** Lines 64-66: what [ssh_command.extend] appends. *)
Definition exclude_args (exclude_list : value) : result (list value) :=
  if py_truthy exclude_list then
    let? items := py_iter exclude_list in
    let exclude_str := PyStr.join "," (map py_str items) in
    Ok [VStr "--exclude"; VStr exclude_str]
  else Ok [].

(** Lines 38-66 together: the command as it stands at line 68. *)
Definition full_command (node_config config : value) : result (list value) :=
  let? base := ssh_command node_config config in
  let? excl := exclude_list node_config config in
  let? extra := exclude_args excl in
  Ok (base ++ extra)%list.

Definition run_vzdump (node_config config : value) : M bool :=
  command <- lift (full_command node_config config) ;;
  shortname <- lift (subscript node_config "shortname") ;;
  fqdn <- lift (subscript node_config "fqdn") ;;
  log INFO (MRunning (py_str shortname) (py_str fqdn)) ;;
  argv <- lift (as_strings command) ;;
  log INFO (MCommand (PyStr.join " " argv)) ;;
  try_except
    (output <- subprocess_run argv 1200 ;;
     log INFO (MBackupDone (py_str shortname) output) ;;
     ret true)
    (fun b =>
       match b with
       | Exc (CalledProcessError rc out err) =>
           Some (log ERROR (MBackupError (py_str shortname)) ;;
                 log ERROR (MReturnCode rc) ;;
                 log ERROR (MStdout out) ;;
                 log ERROR (MStderr err) ;;
                 ret false)
       | Exc FileNotFoundError =>
           Some (log ERROR MSshNotFound ;; ret false)
       | Exc TimeoutExpired =>
           Some (log ERROR (MTimeout (py_str shortname)) ;; ret false)
       | Exc e =>
           Some (log ERROR (MUnexpectedVzdump (py_str shortname) e) ;;
                 ret false)
       | _ => None
       end).

(** *** [backup_job] *)

(** The body of the [for] loop, lines 97-98. *)
Definition backup_node (config node_config : value) : M unit :=
  ok <- run_vzdump node_config config ;;
  if ok then ret tt
  else
    shortname <- lift (py_get node_config "shortname" (VStr "N/A")) ;;
    log WARNING (MNodeFailed (py_str shortname)).

Fixpoint for_each {A} (items : list A) (body : A -> M unit) : M unit :=
  match items with
  | [] => ret tt
  | x :: rest => body x ;; for_each rest body
  end.

Definition backup_job (config : value) : M unit :=
  log INFO MCycleStart ;;
  start_time <- now ;;
  nodes <- lift (subscript config "nodes") ;;
  items <- lift (py_iter nodes) ;;
  for_each items (backup_node config) ;;
  end_time <- now ;;
  log INFO (MCycleCompleted (end_time - start_time)).

(** *** [main] *)

(** Whether [except ValueError] catches [e]. *)
Definition is_value_error (e : exception) : bool :=
  match e with
  | ValueError _ => true
  | InvalidTimeValue => time_error_is_value_error env
  | _ => false
  end.

(** Lines 113-137: the schedule string becomes one registered job. *)
Definition schedule_backup (config : value) : M unit :=
  try_except
    (sched <- lift (subscript config "schedule") ;;
     parts <- lift (py_split sched) ;;
     if negb (List.length parts =? 5)%nat then
       raise (Exc (ValueError "The schedule string must have 5 parts"))
     else
       match parts with
       | [minute; hour; day_of_month; month; day_of_week] =>
           if (String.eqb hour "*" && String.eqb minute "*")%bool then
             Schedule.do EveryMinute config ;;
             log INFO MEveryMinute
           else if String.eqb hour "*" then
             job <- lift (Schedule.hour_at (":" ++ PyStr.zfill 2 minute)) ;;
             Schedule.do job config ;;
             log INFO (MHourly minute)
           else
             job <- lift (Schedule.day_at
                            (PyStr.zfill 2 hour ++ ":" ++ PyStr.zfill 2 minute)) ;;
             Schedule.do job config ;;
             log INFO (MDaily (PyStr.zfill 2 hour) (PyStr.zfill 2 minute))
       | _ => raise (Exc (ValueError "wrong number of values to unpack"))
       end)
    (fun b =>
       match b with
       | Exc e =>
           if is_value_error e then
             Some (sched <- lift (subscript config "schedule") ;;
                   log ERROR (MInvalidSchedule (py_str sched) e) ;;
                   exit 1)
           else None
       | _ => None
       end).

(** [schedule.run_pending()]: every registered job that is due runs
    its action.  Whether the job is due at this poll is the clock's
    business, hence an oracle; so is a fault inside the poll itself. *)
Definition run_pending : M unit :=
  fun st =>
    let st' :=
      {| trace := trace st; clock_reads := clock_reads st;
         spawned := spawned st; polls := S (polls st);
         sleeps := sleeps st; jobs := jobs st |} in
    match poll_signal env (polls st) with
    | Some s => (st', Raise (raised_by s))
    | None =>
        if pending env (polls st)
        then for_each (jobs st') (fun job => backup_job (snd job)) st'
        else (st', Ok tt)
    end.

(** Lines 145-150, the body of the [try] inside [while True]. *)
Definition poll_once : M unit :=
  t <- now ;;
  log DEBUG (MPoll t) ;;
  run_pending ;;
  sleep 10.

Inductive flow : Type := Continue | Break.

(** One turn of [while True]: the [try] with its two [except] clauses. *)
Definition loop_turn : M flow :=
  try_except
    (poll_once ;; ret Continue)
    (fun b =>
       match b with
       | KeyboardInterrupt =>
           Some (log INFO MInterrupted ;; ret Break)
       | Exc e =>
           Some (log ERROR (MMainLoopError e) ;; ret Continue)
       | SystemExit _ => None
       end).

Inductive loop_end : Type := StillPolling | Interrupted.

(** [while True], observed for [fuel] turns: [StillPolling] when the
    loop is still running after that many turns. *)
Fixpoint main_loop (fuel : nat) : M loop_end :=
  match fuel with
  | O => ret StillPolling
  | S n =>
      f <- loop_turn ;;
      match f with
      | Continue => main_loop n
      | Break => ret Interrupted
      end
  end.

(** Lines 110-137: everything before the loop is announced. *)
Definition startup : M value :=
  config <- load_config ;;
  log INFO (MConfigLoaded (py_str config)) ;;
  schedule_backup config ;;
  ret config.

Definition main (fuel : nat) : M loop_end :=
  _ <- startup ;;
  log INFO MStarted ;;
  sleep 5 ;;
  main_loop fuel.

End Orchestrator.

(** How the interpreter ends the process: [main] returning gives status
    0, [exit(code)] gives [code], an uncaught exception gives 1 and an
    uncaught interrupt 130.  [None]: the process is still running. *)
Definition exit_status (r : result loop_end) : option Z :=
  match r with
  | Ok StillPolling => None
  | Ok Interrupted => Some 0
  | Raise (SystemExit code) => Some code
  | Raise (Exc _) => Some 1
  | Raise KeyboardInterrupt => Some 130
  end.

(** Projections of a trace. *)
Fixpoint spawns (tr : list event) : list (list string * Z) :=
  match tr with
  | [] => []
  | Spawn c t :: rest => (c, t) :: spawns rest
  | _ :: rest => spawns rest
  end.

Fixpoint logged (lvl : level) (tr : list event) : list message :=
  match tr with
  | [] => []
  | Log l m :: rest =>
      match l, lvl with
      | DEBUG, DEBUG | INFO, INFO | WARNING, WARNING | ERROR, ERROR =>
          m :: logged lvl rest
      | _, _ => logged lvl rest
      end
  | _ :: rest => logged lvl rest
  end.

(** The durations of the cycle completions a trace records. *)
Fixpoint completions (tr : list event) : list Z :=
  match tr with
  | [] => []
  | Log _ (MCycleCompleted d) :: rest => d :: completions rest
  | _ :: rest => completions rest
  end.

(** ** The specification's vocabulary *)

(** The effective exclusion list in the specification's words: the node's
    list when the node has the key, else the global list when the global
    configuration has it, else the empty list. *)
Definition effective_exclusion_spec (node_config config : dict) : value :=
  match dict_get "exclude_vms" node_config with
  | Some v => v
  | None =>
      match dict_get "exclude_vms" config with
      | Some v => v
      | None => VList []
      end
  end.

(** The exclusion argument in the specification's words: nothing for an
    empty list, otherwise [--exclude] and the identifiers joined by
    commas. *)
Definition exclusion_argument_spec (items : list value) : list value :=
  match items with
  | [] => []
  | _ => [VStr "--exclude"; VStr (PyStr.join "," (map py_str items))]
  end.

(** [BackupOutcome] of the specification. *)
Inductive failure_cause : Type :=
| NonZeroExit (returncode : Z) (stdout stderr : string)
| TransportUnavailable
| Timeout
| Unexpected (e : exception).

Inductive backup_outcome : Type :=
| Success
| Failure (cause : failure_cause).

(** The specification's classification of one remote invocation run
    under [timeout]; [None] when the user interrupts the call. *)
Definition classify_spec (timeout : Z) (p : proc_outcome) : option backup_outcome :=
  match p with
  | Exits elapsed rc out err =>
      if timeout <? elapsed then Some (Failure Timeout)
      else if rc =? 0 then Some Success
      else Some (Failure (NonZeroExit rc out err))
  | Fails (Fault FileNotFoundError) => Some (Failure TransportUnavailable)
  | Fails (Fault TimeoutExpired) => Some (Failure Timeout)
  | Fails (Fault (CalledProcessError rc out err)) =>
      Some (Failure (NonZeroExit rc out err))
  | Fails (Fault e) => Some (Failure (Unexpected e))
  | Fails Interrupt => None
  end.

(** How an outcome shows to the caller and in the log: the flag
    returned and the error records written. *)
Definition returned_flag (o : backup_outcome) : bool :=
  match o with Success => true | Failure _ => false end.

Definition error_records (shortname : string) (o : backup_outcome) : list message :=
  match o with
  | Success => []
  | Failure (NonZeroExit rc out err) =>
      [MBackupError shortname; MReturnCode rc; MStdout out; MStderr err]
  | Failure TransportUnavailable => [MSshNotFound]
  | Failure Timeout => [MTimeout shortname]
  | Failure (Unexpected e) => [MUnexpectedVzdump shortname e]
  end.

(** The rule lines 120-132 ask the library for, as a function of the
    minute and hour fields. *)
Definition selected_rule (minute hour : string) : result rule :=
  if (String.eqb hour "*" && String.eqb minute "*")%bool then Ok EveryMinute
  else if String.eqb hour "*" then
    Schedule.hour_at (":" ++ PyStr.zfill 2 minute)
  else
    Schedule.day_at (PyStr.zfill 2 hour ++ ":" ++ PyStr.zfill 2 minute).

(** The record written after the registration. *)
Definition announcement (minute hour : string) : message :=
  if (String.eqb hour "*" && String.eqb minute "*")%bool then MEveryMinute
  else if String.eqb hour "*" then MHourly minute
  else MDaily (PyStr.zfill 2 hour) (PyStr.zfill 2 minute).

(** The state after [job.do] and the announcement. *)
Definition registered (r : rule) (config : value) (m : message) (st : state)
  : state :=
  {| trace := trace st ++ [Log INFO m]; clock_reads := clock_reads st;
     spawned := spawned st; polls := polls st; sleeps := sleeps st;
     jobs := jobs st ++ [(r, config)] |}.

(** A schedule field that is a decimal literal of value [n]. *)
Definition literal (field : string) (n : Z) : Prop :=
  PyStr.digits field = Some n.

(** The keys the specification calls required at the top level. *)
Definition required_keys : list string :=
  ["mailto"; "fleecing"; "bwlimit"; "pbs_storage"; "notes_template";
   "mailnotification"; "schedule"; "nodes"].

(** The keys [run_vzdump] reads from the global configuration. *)
Definition command_keys : list string :=
  ["mailto"; "fleecing"; "bwlimit"; "pbs_storage"; "notes_template";
   "mailnotification"].

(** The argument vector [run_vzdump] hands to [subprocess.run] for a
    node, when the command can be assembled. *)
Definition argv_of (node_config config : value) : option (list string) :=
  match full_command node_config config with
  | Ok command =>
      match as_strings command with
      | Ok argv => Some argv
      | Raise _ => None
      end
  | Raise _ => None
  end.

Definition command_ready (config node_config : value) : bool :=
  match argv_of node_config config with Some _ => true | None => false end.

Definition argv_or_nil (config node_config : value) : list string :=
  match argv_of node_config config with Some argv => argv | None => [] end.

(** The name [backup_job] puts in its warning. *)
Definition node_name (node_config : value) : string :=
  match py_get node_config "shortname" (VStr "N/A") with
  | Ok v => py_str v
  | Raise _ => "N/A"
  end.

Definition succeeded (p : proc_outcome) : bool :=
  match classify_spec 1200 p with
  | Some Success => true
  | _ => false
  end.

Definition interrupted (p : proc_outcome) : bool :=
  match p with Fails Interrupt => true | _ => false end.

(** One warning per node whose invocation failed, in node order; the
    invocation of the first node consumes process outcome number [k]. *)
Fixpoint expected_warnings (env : environment) (k : nat) (nodes : list value)
  : list message :=
  match nodes with
  | [] => []
  | n :: rest =>
      ((if succeeded (process env k) then [] else [MNodeFailed (node_name n)])
       ++ expected_warnings env (S k) rest)%list
  end.

(** A clock that never runs backwards. *)
Definition monotone (f : nat -> Z) : Prop :=
  forall i j : nat, (i <= j)%nat -> f i <= f j.

(** A key that line 43-52 subscript is absent: one of the six global
    keys, or [fqdn] or [shortname] of the node. *)
Definition lacks_command_key (config node_config : dict) : bool :=
  (existsb (fun k => negb (dict_has k config)) command_keys
   || negb (dict_has "fqdn" node_config)
   || negb (dict_has "shortname" node_config))%bool.

(** [m] raises nothing but exceptions satisfying [P]. *)
Definition raises_only {A} (P : base_exception -> Prop) (m : M A) : Prop :=
  forall (st st' : state) (b : base_exception), m st = (st', Raise b) -> P b.

Definition fails_only {A} (P : base_exception -> Prop) (r : result A) : Prop :=
  forall b : base_exception, r = Raise b -> P b.

Definition is_exc (b : base_exception) : Prop :=
  match b with Exc _ => True | _ => False end.

Definition not_exit (b : base_exception) : Prop :=
  match b with SystemExit _ => False | _ => True end.

(** An environment in which nobody ever presses Ctrl-C. *)
Definition never_interrupts (env : environment) : Prop :=
  (forall k, poll_signal env k <> Some Interrupt)
  /\ (forall k, sleep_signal env k <> Some Interrupt)
  /\ (forall k, process env k <> Fails Interrupt).

(** ** Sample data *)

Module Sample.

Definition pve1 : value :=
  VDict [("shortname", VStr "pve1"); ("fqdn", VStr "pve1.lan")].

Definition pve2 : value :=
  VDict [("shortname", VStr "pve2"); ("fqdn", VStr "pve2.lan");
         ("exclude_vms", VList [])].

Definition pve3 : value :=
  VDict [("shortname", VStr "pve3"); ("fqdn", VStr "pve3.lan");
         ("exclude_vms", VList [VInt 100; VInt 101])].

(** A node entry without [shortname]. *)
Definition nameless : value := VDict [("fqdn", VStr "pve9.lan")].

Definition settings : dict :=
  [("mailto", VStr "admin@example.org"); ("fleecing", VInt 0);
   ("bwlimit", VInt 0); ("pbs_storage", VStr "pbs");
   ("notes_template", VStr "{{guestname}}");
   ("mailnotification", VStr "failure");
   ("exclude_vms", VList [VInt 9])].

Definition config_with (sched : string) (nodes : list value) : dict :=
  (settings ++ [("schedule", VStr sched); ("nodes", VList nodes)])%list.

Definition config : value :=
  VDict (config_with "30 2 * * *" [pve1; pve2; pve3]).

(** Only a schedule: every other required key is missing. *)
Definition bare : dict := [("schedule", VStr "* * * * *")].

(** The second node entry has no [shortname]. *)
Definition broken : dict :=
  config_with "* * * * *" [pve1; nameless; pve3].

(** Four fields instead of five. *)
Definition short_schedule : dict := config_with "30 2 * *" [pve1].

(** A concrete hour next to a wildcard minute. *)
Definition wildcard_minute : dict := config_with "* 2 * * *" [pve1].

(** A quiet world: second remote call exits with code 1, every other
    one succeeds; the job is due at every poll; nobody interrupts. *)
Definition world (doc : value) : environment :=
  {| read_config := Loaded doc;
     clock := fun n => 100 + Z.of_nat n;
     process := fun n =>
       match n with
       | 1%nat => Exits 3 1 "" "vzdump: failed"
       | _ => Exits 5 0 "ok" ""
       end;
     poll_signal := fun _ => None;
     pending := fun _ => true;
     sleep_signal := fun _ => None;
     time_error_is_value_error := false |}.

End Sample.

(** ** Shapes of configurations and of runs *)

Definition is_str (v : value) : bool :=
  match v with VStr _ => true | _ => false end.

(** Every key of [keys] is present in [d]. *)
Definition present (keys : list string) (d : dict) : bool :=
  forallb (fun k => dict_has k d) keys.

(** Every key of [keys] is present in [d] and holds a string. *)
Definition string_valued (keys : list string) (d : dict) : bool :=
  forallb (fun k => match dict_get k d with
                    | Some (VStr _) => true
                    | _ => false
                    end) keys.

(** The values a [for] loop accepts. *)
Definition iterable (v : value) : bool :=
  match v with
  | VList _ | VDict _ | VStr _ => true
  | _ => false
  end.

(** The settings that enter the command as they are, and must therefore
    be strings for [' '.join] of line 69. *)
Definition raw_settings : list string :=
  ["mailto"; "pbs_storage"; "notes_template"; "mailnotification"].

(** A node entry and a global configuration from which lines 38-69 build
    an argument vector. *)
Definition well_formed (config node_config : dict) : bool :=
  (present command_keys config
   && present ["fqdn"; "shortname"] node_config
   && (let v := effective_exclusion_spec node_config config in
       negb (py_truthy v) || iterable v)
   && string_valued raw_settings config
   && string_valued ["shortname"] node_config)%bool.

(** A [nodes] entry the [for] loop of line 96 cannot walk or whose first
    item is no mapping: absent, a scalar, a non-empty mapping (the loop
    then draws its keys) or a non-empty string (it draws characters). *)
Definition nodes_unusable (nodes : option value) : bool :=
  match nodes with
  | None => true
  | Some (VList _) => false
  | Some (VDict d) => match d with [] => false | _ => true end
  | Some (VStr s) => match s with EmptyString => false | _ => true end
  | Some _ => true
  end.

(** The pauses a trace records, in seconds. *)
Fixpoint naps (tr : list event) : list Z :=
  match tr with
  | [] => []
  | Sleep s :: rest => s :: naps rest
  | _ :: rest => naps rest
  end.

(** [m] takes every state to one related to it by [R]. *)
Definition steps {A} (R : state -> state -> Prop) (m : M A) : Prop :=
  forall (st st' : state) (r : result A), m st = (st', r) -> R st st'.

Definition same_jobs (st st' : state) : Prop := jobs st' = jobs st.

(** The run appends events satisfying [Q] and removes none. *)
Definition extends_with (Q : event -> Prop) (st st' : state) : Prop :=
  exists added : list event,
    trace st' = (trace st ++ added)%list /\ Forall Q added.

(** No pause is taken and the count of pauses stands still. *)
Definition no_nap (st st' : state) : Prop :=
  sleeps st' = sleeps st /\ naps (trace st') = naps (trace st).

(** What the orchestrator may do to the outside: log, run
    [/usr/bin/ssh] under the 1200-second timeout, pause 5 or 10
    seconds. *)
Definition allowed (e : event) : Prop :=
  match e with
  | Log _ _ => True
  | Spawn argv timeout =>
      timeout = 1200 /\ hd_error argv = Some "/usr/bin/ssh"
  | Sleep seconds => seconds = 5 \/ seconds = 10
  end.

(** The state [subprocess.run] leaves behind. *)
Definition launched (argv : list string) (timeout : Z) (st : state) : state :=
  {| trace := trace st ++ [Spawn argv timeout];
     clock_reads := clock_reads st; spawned := S (spawned st);
     polls := polls st; sleeps := sleeps st; jobs := jobs st |}.

Module Scenario.

(** [mailto] given as a list of addresses. *)
Definition two_recipients : dict :=
  [("mailto", VList [VStr "a@example.org"; VStr "b@example.org"]);
   ("fleecing", VInt 0); ("bwlimit", VInt 0); ("pbs_storage", VStr "pbs");
   ("notes_template", VStr "{{guestname}}");
   ("mailnotification", VStr "failure");
   ("schedule", VStr "0 3 * * *"); ("nodes", VList [Sample.pve1])].

(** [exclude_vms] given as one identifier instead of a list. *)
Definition single_exclusion : dict :=
  [("mailto", VStr "admin@example.org");
   ("fleecing", VInt 0); ("bwlimit", VInt 0); ("pbs_storage", VStr "pbs");
   ("notes_template", VStr "{{guestname}}");
   ("mailnotification", VStr "failure"); ("exclude_vms", VInt 100);
   ("schedule", VStr "0 3 * * *"); ("nodes", VList [Sample.pve1])].

(** [nodes] given as a mapping from names to entries. *)
Definition nodes_by_name : dict :=
  (Sample.settings
   ++ [("schedule", VStr "* * * * *");
       ("nodes", VDict [("pve1", Sample.pve1)])])%list.

(** [schedule] given as a number. *)
Definition numeric_schedule : dict :=
  (Sample.settings ++ [("schedule", VInt 5); ("nodes", VList [Sample.pve1])])%list.

(** The user presses Ctrl-C while the second remote call runs. *)
Definition interrupted_backup (doc : value) : environment :=
  {| read_config := Loaded doc;
     clock := fun n => 100 + Z.of_nat n;
     process := fun n =>
       match n with
       | 1%nat => Fails Interrupt
       | _ => Exits 5 0 "ok" ""
       end;
     poll_signal := fun _ => None;
     pending := fun _ => true;
     sleep_signal := fun _ => None;
     time_error_is_value_error := false |}.

(** The user presses Ctrl-C during the warm-up pause. *)
Definition interrupted_warm_up (doc : value) : environment :=
  {| read_config := Loaded doc;
     clock := fun n => 100 + Z.of_nat n;
     process := fun _ => Exits 5 0 "ok" "";
     poll_signal := fun _ => None;
     pending := fun _ => true;
     sleep_signal := fun n => match n with O => Some Interrupt | _ => None end;
     time_error_is_value_error := false |}.


End Scenario.

(** ** The primitives on examples *)

Example split_five :
  PyStr.split "30 2  * *	*" = ["30"; "2"; "*"; "*"; "*"].
Proof. reflexivity. Qed.

Example zfill_examples :
  PyStr.zfill 2 "5" = "05" /\ PyStr.zfill 2 "*" = "0*" /\
  PyStr.zfill 2 "-5" = "-5" /\ PyStr.zfill 2 "123" = "123" /\
  PyStr.zfill 2 "" = "00" /\ PyStr.zfill 3 "-5" = "-05".
Proof. repeat split; reflexivity. Qed.

Example of_Z_examples :
  PyStr.of_Z 0 = "0" /\ PyStr.of_Z 1200 = "1200" /\ PyStr.of_Z (-7) = "-7".
Proof. repeat split; reflexivity. Qed.

Example py_str_examples :
  py_str (VInt 101) = "101" /\
  py_str (VStr "pve1") = "pve1" /\
  py_str (VBool true) = "True" /\
  py_str (VList [VInt 1; VStr "ab"; VNone]) = "[1, 'ab', None]" /\
  py_str (VDict [("k", VList [])]) = "{'k': []}".
Proof. repeat split; reflexivity. Qed.

(** ** Basic facts *)

Lemma spawns_app (a b : list event) :
  spawns (a ++ b) = (spawns a ++ spawns b)%list.
Proof.
  induction a as [|e a IH]; simpl; [reflexivity|].
  destruct e; simpl; rewrite IH; reflexivity.
Qed.

Lemma logged_app (lvl : level) (a b : list event) :
  logged lvl (a ++ b) = (logged lvl a ++ logged lvl b)%list.
Proof.
  induction a as [|e a IH]; simpl; [reflexivity|].
  destruct e as [l m| |]; simpl; try exact IH.
  destruct l, lvl; simpl; rewrite IH; reflexivity.
Qed.

Lemma completions_app (a b : list event) :
  completions (a ++ b) = (completions a ++ completions b)%list.
Proof.
  induction a as [|e a IH]; simpl; [reflexivity|].
  destruct e as [l m| |]; simpl; try exact IH.
  destruct m; simpl; rewrite ?IH; reflexivity.
Qed.

Lemma dict_has_get (k : string) (d : dict) :
  dict_has k d = match dict_get k d with Some _ => true | None => false end.
Proof. reflexivity. Qed.

(** ** The exclusion list (lines 56-66) *)

(** C2. For every node and global configuration the list computed by
    lines 57-62 is the node's [exclude_vms] entry whenever the node has
    the key (even when empty), else the global entry when present, else
    the empty list; lines 64-66 append [--exclude] with the
    comma-joined identifiers exactly when that list is non-empty, and
    the command is the base command followed by that argument. *)
Theorem exclusion_precedence (node_config config : dict) :
  exclude_list (VDict node_config) (VDict config)
    = Ok (effective_exclusion_spec node_config config)
  /\ (forall items : list value,
        exclude_args (VList items) = Ok (exclusion_argument_spec items)
        /\ (In (VStr "--exclude") (exclusion_argument_spec items)
            <-> items <> []))
  /\ full_command (VDict node_config) (VDict config)
     = (let? base := ssh_command (VDict node_config) (VDict config) in
        let? extra :=
          exclude_args (effective_exclusion_spec node_config config) in
        Ok (base ++ extra)%list).
Proof.
  assert (Hres : exclude_list (VDict node_config) (VDict config)
                 = Ok (effective_exclusion_spec node_config config)).
  { unfold exclude_list, effective_exclusion_spec, py_in, subscript, rbind.
    rewrite !dict_has_get.
    destruct (dict_get "exclude_vms" node_config) as [v|]; [reflexivity|].
    destruct (dict_get "exclude_vms" config) as [v|]; reflexivity. }
  split; [exact Hres|]. split.
  - intros items. split.
    + destruct items as [|x rest]; reflexivity.
    + destruct items as [|x rest]; simpl; split.
      * intros [].
      * intros H; exact (H eq_refl).
      * intros _; discriminate.
      * intros _; left; reflexivity.
  - unfold full_command. rewrite Hres. reflexivity.
Qed.

Example exclusion_node_overrides :
  exclude_list Sample.pve3 Sample.config = Ok (VList [VInt 100; VInt 101])
  /\ exclude_list Sample.pve2 Sample.config = Ok (VList [])
  /\ exclude_list Sample.pve1 Sample.config = Ok (VList [VInt 9])
  /\ exclude_args (VList [VInt 100; VInt 101])
     = Ok [VStr "--exclude"; VStr "100,101"].
Proof. repeat split; reflexivity. Qed.

(** ** One node invocation (lines 35-89) *)

Lemma full_command_reads (node_config config : value) (command : list value) :
  full_command node_config config = Ok command ->
  exists fqdn shortname,
    subscript node_config "fqdn" = Ok fqdn
    /\ subscript node_config "shortname" = Ok shortname.
Proof.
  unfold full_command, ssh_command. intros H.
  destruct (subscript node_config "fqdn") as [f|]; [|discriminate].
  destruct (subscript config "mailto"); [|discriminate].
  destruct (subscript config "fleecing"); [|discriminate].
  destruct (subscript config "bwlimit"); [|discriminate].
  destruct (subscript config "pbs_storage"); [|discriminate].
  destruct (subscript config "notes_template"); [|discriminate].
  destruct (subscript config "mailnotification"); [|discriminate].
  destruct (subscript node_config "shortname") as [s|]; [|discriminate].
  exists f, s. split; reflexivity.
Qed.

(** What [run_vzdump] does once the command has been assembled. *)
Lemma run_vzdump_unfold (env : environment) (node_config config : value)
    (command : list value) (argv : list string) (shortname fqdn : value)
    (st : state) :
  full_command node_config config = Ok command ->
  as_strings command = Ok argv ->
  subscript node_config "shortname" = Ok shortname ->
  subscript node_config "fqdn" = Ok fqdn ->
  run_vzdump env node_config config st
  = let st1 := emit (Log INFO (MCommand (PyStr.join " " argv)))
                 (emit (Log INFO (MRunning (py_str shortname) (py_str fqdn))) st) in
    let st2 :=
      {| trace := trace st1 ++ [Spawn argv 1200];
         clock_reads := clock_reads st1; spawned := S (spawned st1);
         polls := polls st1; sleeps := sleeps st1; jobs := jobs st1 |} in
    let sn := py_str shortname in
    match process env (spawned st) with
    | Exits elapsed rc out err =>
        if 1200 <? elapsed then (emit (Log ERROR (MTimeout sn)) st2, Ok false)
        else if rc =? 0 then (emit (Log INFO (MBackupDone sn out)) st2, Ok true)
        else (emit (Log ERROR (MStderr err))
                (emit (Log ERROR (MStdout out))
                   (emit (Log ERROR (MReturnCode rc))
                      (emit (Log ERROR (MBackupError sn)) st2))), Ok false)
    | Fails (Fault (CalledProcessError rc out err)) =>
        (emit (Log ERROR (MStderr err))
           (emit (Log ERROR (MStdout out))
              (emit (Log ERROR (MReturnCode rc))
                 (emit (Log ERROR (MBackupError sn)) st2))), Ok false)
    | Fails (Fault FileNotFoundError) => (emit (Log ERROR MSshNotFound) st2, Ok false)
    | Fails (Fault TimeoutExpired) => (emit (Log ERROR (MTimeout sn)) st2, Ok false)
    | Fails (Fault e) => (emit (Log ERROR (MUnexpectedVzdump sn e)) st2, Ok false)
    | Fails Interrupt => (st2, Raise KeyboardInterrupt)
    end.
Proof.
  intros Hc Ha Hs Hf.
  unfold run_vzdump, bind, lift. rewrite Hc, Hs, Hf. cbn [log].
  rewrite Ha. unfold try_except, subprocess_run. cbn [emit spawned].
  destruct (process env (spawned st)) as [elapsed rc out err|[e|]].
  - destruct (1200 <? elapsed); [reflexivity|].
    destruct (rc =? 0); reflexivity.
  - destruct e; reflexivity.
  - reflexivity.
Qed.

(** C6. Whenever the command of a node is assembled, [run_vzdump] issues
    it once with a timeout of 1200 seconds and classifies what comes
    back: the flag returned and the error records written are those of
    the specification's outcome (exit code 0 within the timeout is a
    success; a non-zero exit is a failure recording return code, stdout
    and stderr; a missing ssh binary, an expired timeout and any other
    fault are failures of their own kind), and [True] is returned exactly
    when the child exits with code 0 within the timeout. *)
Theorem run_vzdump_classifies (env : environment) (node_config config : value)
    (command : list value) (argv : list string) (shortname : value)
    (st : state) :
  full_command node_config config = Ok command ->
  as_strings command = Ok argv ->
  subscript node_config "shortname" = Ok shortname ->
  let '(st', r) := run_vzdump env node_config config st in
  spawns (trace st') = (spawns (trace st) ++ [(argv, 1200)])%list
  /\ (forall o : backup_outcome,
        classify_spec 1200 (process env (spawned st)) = Some o ->
        r = Ok (returned_flag o)
        /\ logged ERROR (trace st')
           = (logged ERROR (trace st) ++ error_records (py_str shortname) o)%list)
  /\ (r = Ok true <->
      exists elapsed out err,
        process env (spawned st) = Exits elapsed 0 out err /\ elapsed <= 1200).
Proof.
  intros Hc Ha Hs.
  destruct (full_command_reads _ _ Hc) as (fqdn & sn' & Hf & Hs').
  rewrite (run_vzdump_unfold env _ _ st Hc Ha Hs Hf). cbn zeta.
  unfold classify_spec.
  destruct (process env (spawned st)) as [elapsed rc out err|[e|]].
  - destruct (1200 <? elapsed) eqn:Ht.
    + cbn [emit trace]. rewrite !spawns_app, !logged_app. simpl.
      rewrite !app_nil_r. split; [reflexivity|]. split.
      * intros o [= <-]. split; reflexivity.
      * split; [discriminate|]. intros (el & o1 & e1 & [= -> _ _ _] & Hle).
        apply Z.ltb_lt in Ht. lia.
    + destruct (rc =? 0) eqn:Hrc.
      * cbn [emit trace]. rewrite !spawns_app, !logged_app. simpl.
        rewrite !app_nil_r. split; [reflexivity|]. split.
        -- intros o [= <-]. split; [reflexivity|]. simpl.
           rewrite app_nil_r. reflexivity.
        -- split; [|reflexivity]. intros _. apply Z.eqb_eq in Hrc. subst rc.
           exists elapsed, out, err. split; [reflexivity|].
           apply Z.ltb_ge in Ht. exact Ht.
      * cbn [emit trace]. rewrite !spawns_app, !logged_app. simpl.
        rewrite !app_nil_r. split; [reflexivity|]. split.
        -- intros o [= <-]. split; [reflexivity|]. simpl.
           rewrite <- !app_assoc. reflexivity.
        -- split; [discriminate|]. intros (el & o1 & e1 & [= _ -> _ _] & _).
           discriminate.
  - destruct e; cbn [emit trace]; rewrite !spawns_app, !logged_app; simpl;
      rewrite !app_nil_r;
      (split; [reflexivity|]); split;
      try (intros o [= <-]; split; [reflexivity|]; simpl;
           rewrite <- ?app_assoc; reflexivity);
      (split; [discriminate|]; intros (el & o1 & e1 & Hp & _); discriminate).
  - cbn [trace]. rewrite !spawns_app. cbn [emit trace].
    rewrite !spawns_app. simpl. rewrite !app_nil_r.
    split; [reflexivity|]. split.
    + intros o Ho. discriminate.
    + split; [discriminate|]. intros (el & o1 & e1 & Hp & _). discriminate.
Qed.

Lemma run_vzdump_classifies_witness :
  let '(st', r) :=
    run_vzdump (Sample.world Sample.config) Sample.pve3 Sample.config initial in
  spawns (trace st')
  = [(["/usr/bin/ssh"; "-p"; "22"; "-o"; "StrictHostKeyChecking=no";
       "-o"; "UserKnownHostsFile=/dev/null"; "root@pve3.lan"; "vzdump";
       "--mode"; "snapshot"; "--mailto"; "admin@example.org";
       "--fleecing"; "0"; "--bwlimit"; "0"; "--storage"; "pbs";
       "--notes-template"; "{{guestname}}"; "--mailnotification"; "failure";
       "--node"; "pve3"; "--all"; "1"; "--exclude"; "100,101"], 1200)]
  /\ (forall o : backup_outcome,
        classify_spec 1200 (Exits 5 0 "ok" "") = Some o ->
        r = Ok (returned_flag o)
        /\ logged ERROR (trace st') = error_records "pve3" o)
  /\ (r = Ok true <->
      exists elapsed out err,
        Exits 5 0 "ok" "" = Exits elapsed 0 out err /\ elapsed <= 1200).
Proof.
  exact (@run_vzdump_classifies (Sample.world Sample.config) Sample.pve3
           Sample.config _ _ (VStr "pve3") initial
           eq_refl eq_refl eq_refl).
Defined.

(** [run_vzdump] raises past its boundary when a key of the command is
    missing: the subscripts of lines 43-52 stand outside the [try]. *)
Lemma ssh_command_missing_key (node_config config : value) (b : base_exception) :
  ssh_command node_config config = Raise b ->
  forall (env : environment) (st : state),
    run_vzdump env node_config config st = (st, Raise b).
Proof.
  intros H env st. unfold run_vzdump, bind, lift, full_command.
  rewrite H. reflexivity.
Qed.

(** C1 (the code departs from it). A node entry without [shortname]
    makes [run_vzdump] raise [KeyError] to its caller instead of
    returning an outcome; nothing is logged and nothing is spawned. *)
Theorem run_vzdump_raises_past_boundary (env : environment) (st : state) :
  run_vzdump env Sample.nameless Sample.config st
  = (st, Raise (Exc (KeyError "shortname"))).
Proof. apply ssh_command_missing_key. reflexivity. Qed.

(** ** One cycle (lines 91-102) *)

Lemma command_ready_inv (config node_config : value) :
  command_ready config node_config = true ->
  exists command argv shortname fqdn,
    full_command node_config config = Ok command
    /\ as_strings command = Ok argv
    /\ subscript node_config "shortname" = Ok shortname
    /\ subscript node_config "fqdn" = Ok fqdn
    /\ argv_or_nil config node_config = argv
    /\ node_name node_config = py_str shortname.
Proof.
  unfold command_ready, argv_or_nil, argv_of. intros H.
  destruct (full_command node_config config) as [command|] eqn:Hc;
    [|discriminate].
  destruct (as_strings command) as [argv|] eqn:Ha; [|discriminate].
  destruct (full_command_reads _ _ Hc) as (fqdn & sn & Hf & Hs).
  exists command, argv, sn, fqdn. repeat split; try assumption.
  unfold node_name. destruct node_config; try discriminate.
  unfold subscript in Hs. unfold py_get.
  destruct (dict_get "shortname" entries); [|discriminate].
  injection Hs as ->. reflexivity.
Qed.

(** The loop body on a node whose command can be assembled: one spawn,
    a warning exactly on failure, and the loop goes on. *)
Lemma backup_node_step (env : environment) (config node_config : value)
    (st : state) :
  command_ready config node_config = true ->
  interrupted (process env (spawned st)) = false ->
  exists st',
    backup_node env config node_config st = (st', Ok tt)
    /\ spawns (trace st')
       = (spawns (trace st) ++ [(argv_or_nil config node_config, 1200)])%list
    /\ logged WARNING (trace st')
       = (logged WARNING (trace st)
          ++ (if succeeded (process env (spawned st)) then []
              else [MNodeFailed (node_name node_config)]))%list
    /\ spawned st' = S (spawned st)
    /\ clock_reads st' = clock_reads st
    /\ completions (trace st') = completions (trace st).
Proof.
  intros Hr Hi.
  destruct (command_ready_inv _ _ Hr)
    as (command & argv & sn & fqdn & Hc & Ha & Hs & Hf & Hargv & Hname).
  unfold backup_node, bind.
  rewrite (run_vzdump_unfold env _ _ st Hc Ha Hs Hf). cbn zeta.
  rewrite Hargv, Hname. unfold succeeded, classify_spec.
  assert (Hget : py_get node_config "shortname" (VStr "N/A") = Ok sn).
  { destruct node_config; try discriminate. unfold subscript in Hs.
    unfold py_get. destruct (dict_get "shortname" entries); [|discriminate].
    injection Hs as ->. reflexivity. }
  unfold lift. rewrite Hget.
  destruct (process env (spawned st)) as [elapsed rc out err|[e|]];
    [| |discriminate].
  - destruct (1200 <? elapsed); [|destruct (rc =? 0)];
      eexists; (split; [reflexivity|]); cbn [log emit trace spawned clock_reads];
      rewrite !spawns_app, !logged_app, !completions_app; simpl;
      rewrite ?app_nil_r; repeat split; reflexivity.
  - destruct e; eexists; (split; [reflexivity|]);
      cbn [log emit trace spawned clock_reads];
      rewrite !spawns_app, !logged_app, !completions_app; simpl;
      rewrite ?app_nil_r; repeat split; reflexivity.
Qed.

Lemma for_each_nodes (env : environment) (config : value) (nodes : list value) :
  forall st : state,
    forallb (command_ready config) nodes = true ->
    (forall i : nat, (i < List.length nodes)%nat ->
       interrupted (process env (spawned st + i)) = false) ->
    exists st',
      for_each nodes (backup_node env config) st = (st', Ok tt)
      /\ spawns (trace st')
         = (spawns (trace st)
            ++ map (fun n => (argv_or_nil config n, 1200)) nodes)%list
      /\ logged WARNING (trace st')
         = (logged WARNING (trace st)
            ++ expected_warnings env (spawned st) nodes)%list
      /\ spawned st' = (spawned st + List.length nodes)%nat
      /\ clock_reads st' = clock_reads st
      /\ completions (trace st') = completions (trace st).
Proof.
  induction nodes as [|n rest IH]; intros st Hready Hquiet.
  - exists st. simpl. rewrite !app_nil_r, Nat.add_0_r.
    repeat split; reflexivity.
  - simpl in Hready. apply andb_prop in Hready as [Hn Hrest].
    assert (H0 : interrupted (process env (spawned st)) = false).
    { rewrite <- (Nat.add_0_r (spawned st)). apply Hquiet. simpl. lia. }
    destruct (backup_node_step env config n st Hn H0)
      as (st1 & Hrun & Hsp & Hw & Hcount & Hclock & Hdone).
    destruct (IH st1 Hrest)
      as (st2 & Hrun2 & Hsp2 & Hw2 & Hcount2 & Hclock2 & Hdone2).
    { intros i Hi. rewrite Hcount.
      replace (S (spawned st) + i)%nat with (spawned st + S i)%nat by lia.
      apply Hquiet. simpl. lia. }
    exists st2. cbn [for_each]. unfold bind at 1. rewrite Hrun.
    split; [exact Hrun2|].
    rewrite Hsp2, Hw2, Hsp, Hw, Hcount2, Hclock2, Hcount, Hclock.
    rewrite Hdone2, Hdone.
    cbn [map expected_warnings List.length].
    rewrite <- !app_assoc. repeat split; try reflexivity. lia.
Qed.




(** ** Reading the schedule (lines 113-137) *)

Section TimeStrings.

Lemma digit_is_plain (c : ascii) (d : Z) :
  PyStr.digit_of c = Some d ->
  Ascii.eqb c "+" = false /\ Ascii.eqb c "-" = false
  /\ Ascii.eqb c ":" = false /\ Ascii.eqb c "*" = false.
Proof.
  destruct c as [[] [] [] [] [] [] [] []]; cbv; intros H;
    try discriminate H; repeat split; reflexivity.
Qed.

Lemma digits_from_single (s : string) :
  forall acc n, PyStr.digits_from acc s = Some n ->
                PyStr.split_on ":" s = [s].
Proof.
  induction s as [|c rest IH]; intros acc n H; [reflexivity|].
  cbn [PyStr.digits_from] in H. cbn [PyStr.split_on].
  destruct (PyStr.digit_of c) as [d|] eqn:Hd; [|discriminate].
  destruct (digit_is_plain _ Hd) as (_ & _ & Hc & _). rewrite Hc.
  rewrite (IH _ _ H). reflexivity.
Qed.

Lemma digits_from_prefix (x : string) :
  forall acc n y, PyStr.digits_from acc x = Some n ->
    PyStr.split_on ":" (x ++ String ":" y) = x :: PyStr.split_on ":" y.
Proof.
  induction x as [|c rest IH]; intros acc n y H; [reflexivity|].
  cbn [PyStr.digits_from] in H. cbn [append PyStr.split_on].
  destruct (PyStr.digit_of c) as [d|] eqn:Hd; [|discriminate].
  destruct (digit_is_plain _ Hd) as (_ & _ & Hc & _). rewrite Hc.
  rewrite (IH _ _ y H). reflexivity.
Qed.

Lemma literal_digits_from (s : string) (n : Z) :
  literal s n -> PyStr.digits_from 0 s = Some n.
Proof. unfold literal, PyStr.digits. destruct s; [discriminate|auto]. Qed.

Lemma literal_not_star (s : string) (n : Z) :
  literal s n -> String.eqb s "*" = false.
Proof.
  unfold literal, PyStr.digits. destruct s as [|c rest]; [reflexivity|].
  cbn [PyStr.digits_from]. destruct (PyStr.digit_of c) eqn:Hd; [|discriminate].
  destruct (digit_is_plain _ Hd) as (_ & _ & _ & Hc). intros _.
  cbn [String.eqb]. rewrite Hc. reflexivity.
Qed.

Lemma to_int_literal (s : string) (n : Z) :
  literal s n -> Schedule.to_int s = Some n.
Proof.
  unfold literal, PyStr.digits, Schedule.to_int.
  destruct s as [|c rest]; [discriminate|]. intros H.
  assert (Hd : exists d, PyStr.digit_of c = Some d).
  { cbn [PyStr.digits_from] in H. destruct (PyStr.digit_of c) as [d|];
      [exists d; reflexivity|discriminate]. }
  destruct Hd as [d Hd].
  destruct (digit_is_plain _ Hd) as (Hp & Hm & _ & _).
  rewrite Hp, Hm. exact H.
Qed.

(** Padding a literal to two characters keeps its value. *)
Lemma zfill_literal (s : string) (n : Z) :
  literal s n -> literal (PyStr.zfill 2 s) n.
Proof.
  unfold literal. destruct s as [|c [|c2 rest]]; intros H.
  - discriminate.
  - unfold PyStr.digits in H. cbn [PyStr.digits_from] in H.
    destruct (PyStr.digit_of c) as [d|] eqn:Hd; [|discriminate].
    destruct (digit_is_plain _ Hd) as (Hp & Hm & _ & _).
    unfold PyStr.zfill. cbn [String.length Nat.leb].
    rewrite Hp, Hm. cbn [orb Nat.sub PyStr.zeros append].
    unfold PyStr.digits. cbn [PyStr.digits_from].
    change (PyStr.digit_of "0") with (Some 0). cbn [Z.mul Z.add].
    rewrite Hd. exact H.
  - exact H.
Qed.

Lemma split_on_not_nil (sep : ascii) (s : string) :
  PyStr.split_on sep s <> [].
Proof.
  destruct s as [|c rest]; cbn [PyStr.split_on]; [discriminate|].
  destruct (Ascii.eqb c sep); [discriminate|].
  destruct (PyStr.split_on sep rest); discriminate.
Qed.

Lemma split_on_last (h t : string) :
  PyStr.split_on ":" t = [t] ->
  PyStr.split_on ":" (h ++ String ":" t) = (PyStr.split_on ":" h ++ [t])%list.
Proof.
  intros Ht. induction h as [|c rest IH].
  - cbn [append PyStr.split_on]. rewrite Ascii.eqb_refl, Ht. reflexivity.
  - cbn [append PyStr.split_on]. rewrite IH.
    destruct (Ascii.eqb c ":"); [reflexivity|].
    destruct (PyStr.split_on ":" rest) as [|w ws] eqn:Hs; [|reflexivity].
    exfalso. exact (split_on_not_nil _ _ Hs).
Qed.

Lemma hour_at_literal (minute : string) (m : Z) :
  literal minute m -> 0 <= m <= 59 ->
  Schedule.hour_at (":" ++ PyStr.zfill 2 minute) = Ok (HourlyAtMinute m).
Proof.
  intros Hl Hm. apply zfill_literal in Hl.
  unfold Schedule.hour_at. cbn [append PyStr.split_on].
  rewrite Ascii.eqb_refl.
  rewrite (digits_from_single _ _ (literal_digits_from Hl)).
  unfold Schedule.in_range. rewrite (to_int_literal Hl).
  replace ((0 <=? m) && (m <=? 59))%bool with true; [reflexivity|].
  symmetry. apply andb_true_intro. split; apply Z.leb_le; lia.
Qed.

Lemma day_at_literal (hour minute : string) (h m : Z) :
  literal hour h -> 0 <= h <= 23 -> literal minute m -> 0 <= m <= 59 ->
  Schedule.day_at (PyStr.zfill 2 hour ++ ":" ++ PyStr.zfill 2 minute)
  = Ok (DailyAt h m).
Proof.
  intros Hh Hhr Hm Hmr. apply zfill_literal in Hh, Hm.
  unfold Schedule.day_at. cbn [append].
  rewrite digits_from_prefix with (acc := 0) (n := h)
    by exact (literal_digits_from Hh).
  rewrite (digits_from_single _ _ (literal_digits_from Hm)).
  unfold Schedule.in_range. rewrite (to_int_literal Hh), (to_int_literal Hm).
  replace ((0 <=? h) && (h <=? 23))%bool with true.
  - replace ((0 <=? m) && (m <=? 59))%bool with true; [reflexivity|].
    symmetry. apply andb_true_intro. split; apply Z.leb_le; lia.
  - symmetry. apply andb_true_intro. split; apply Z.leb_le; lia.
Qed.

(** A wildcard minute next to any hour is no time of day. *)
Lemma day_at_wildcard_minute (hour : string) :
  Schedule.day_at (PyStr.zfill 2 hour ++ ":" ++ PyStr.zfill 2 "*")
  = Raise (Exc InvalidTimeValue).
Proof.
  unfold Schedule.day_at.
  change (":" ++ PyStr.zfill 2 "*") with (String ":" "0*").
  rewrite split_on_last by reflexivity.
  destruct (PyStr.split_on ":" (PyStr.zfill 2 hour)) as [|a [|b l]].
  - reflexivity.
  - cbn [app]. change (Schedule.in_range 0 59 "0*") with (@None Z).
    destruct (Schedule.in_range 0 23 a); reflexivity.
  - destruct l; reflexivity.
Qed.

End TimeStrings.

(** [schedule_backup] on a five-field string: the selected rule is
    registered and announced, or its rejection ends the start-up. *)
Lemma schedule_backup_selects (env : environment) (c : dict)
    (s minute hour dom month dow : string) (st : state) :
  dict_get "schedule" c = Some (VStr s) ->
  PyStr.split s = [minute; hour; dom; month; dow] ->
  schedule_backup env (VDict c) st
  = match selected_rule minute hour with
    | Ok r => (registered r (VDict c) (announcement minute hour) st, Ok tt)
    | Raise (Exc e) =>
        if is_value_error env e
        then (emit (Log ERROR (MInvalidSchedule s e)) st, Raise (SystemExit 1))
        else (st, Raise (Exc e))
    | Raise b => (st, Raise b)
    end.
Proof.
  intros Hs Hp.
  unfold schedule_backup, try_except, bind, lift, subscript.
  rewrite Hs. cbn [py_split]. rewrite Hp. cbn [List.length Nat.eqb negb].
  unfold selected_rule, announcement.
  destruct (String.eqb hour "*"), (String.eqb minute "*"); cbn [andb].
  - reflexivity.
  - destruct (Schedule.hour_at _) as [r|[e| |code]]; try reflexivity.
    destruct (is_value_error env e); [|reflexivity].
    cbn [py_str log exit raise]. reflexivity.
  - destruct (Schedule.day_at _) as [r|[e| |code]]; try reflexivity.
    destruct (is_value_error env e); [|reflexivity].
    cbn [py_str log exit raise]. reflexivity.
  - destruct (Schedule.day_at _) as [r|[e| |code]]; try reflexivity.
    destruct (is_value_error env e); [|reflexivity].
    cbn [py_str log exit raise]. reflexivity.
Qed.

Lemma selected_every_minute : selected_rule "*" "*" = Ok EveryMinute.
Proof. reflexivity. Qed.

Lemma selected_hourly (minute : string) (m : Z) :
  literal minute m -> 0 <= m <= 59 ->
  selected_rule minute "*" = Ok (HourlyAtMinute m).
Proof.
  intros Hl Hm. unfold selected_rule.
  change (String.eqb "*" "*") with true.
  rewrite (literal_not_star Hl). cbn [andb].
  exact (hour_at_literal Hl Hm).
Qed.

Lemma selected_daily (minute hour : string) (h m : Z) :
  literal hour h -> 0 <= h <= 23 -> literal minute m -> 0 <= m <= 59 ->
  selected_rule minute hour = Ok (DailyAt h m).
Proof.
  intros Hh Hhr Hm Hmr. unfold selected_rule.
  rewrite (literal_not_star Hh). cbn [andb].
  exact (day_at_literal Hh Hhr Hm Hmr).
Qed.

(** C4. On a five-field schedule string the rule registered depends on
    the minute and hour fields alone: both [*] give [EveryMinute]; hour
    [*] with a literal minute [m] in [0,59] gives [HourlyAtMinute m];
    a literal hour [h] in [0,23] with a literal minute [m] in [0,59]
    gives [DailyAt h m]; and two strings with the same minute and hour
    fields end alike with the same rules registered. *)
Theorem schedule_selects_rule (env : environment) (c : dict)
    (s minute hour dom month dow : string) (st : state) :
  dict_get "schedule" c = Some (VStr s) ->
  PyStr.split s = [minute; hour; dom; month; dow] ->
  let '(st', r) := schedule_backup env (VDict c) st in
  (minute = "*" -> hour = "*" ->
     r = Ok tt /\ jobs st' = (jobs st ++ [(EveryMinute, VDict c)])%list)
  /\ (forall m : Z,
        hour = "*" -> literal minute m -> 0 <= m <= 59 ->
        r = Ok tt
        /\ jobs st' = (jobs st ++ [(HourlyAtMinute m, VDict c)])%list)
  /\ (forall h m : Z,
        literal hour h -> 0 <= h <= 23 -> literal minute m -> 0 <= m <= 59 ->
        r = Ok tt /\ jobs st' = (jobs st ++ [(DailyAt h m, VDict c)])%list)
  /\ (forall (c2 : dict) (s2 dom2 month2 dow2 : string),
        dict_get "schedule" c2 = Some (VStr s2) ->
        PyStr.split s2 = [minute; hour; dom2; month2; dow2] ->
        let '(st2, r2) := schedule_backup env (VDict c2) st in
        r2 = r /\ map fst (jobs st2) = map fst (jobs st')).
Proof.
  intros Hs Hp. rewrite (schedule_backup_selects env _ st Hs Hp).
  match goal with
  | |- let '(_, _) := ?run in _ => destruct run as [st' r] eqn:Hres
  end.
  split; [|split; [|split]].
  - intros -> ->. rewrite selected_every_minute in Hres.
    injection Hres as <- <-. split; reflexivity.
  - intros m -> Hl Hm. rewrite (selected_hourly Hl Hm) in Hres.
    injection Hres as <- <-. split; reflexivity.
  - intros h m Hh Hhr Hm Hmr. rewrite (selected_daily Hh Hhr Hm Hmr) in Hres.
    injection Hres as <- <-. split; reflexivity.
  - intros c2 s2 dom2 month2 dow2 Hs2 Hp2.
    rewrite (schedule_backup_selects env _ st Hs2 Hp2).
    destruct (selected_rule minute hour) as [r0|[e| |code]].
    + injection Hres as <- <-. cbn [registered jobs]. rewrite !map_app.
      split; reflexivity.
    + destruct (is_value_error env e); injection Hres as <- <-;
        split; reflexivity.
    + injection Hres as <- <-. split; reflexivity.
    + injection Hres as <- <-. split; reflexivity.
Qed.

Lemma schedule_selects_rule_witness :
  let '(st', r) :=
    schedule_backup (Sample.world Sample.config) Sample.config initial in
  r = Ok tt /\ jobs st' = [(DailyAt 2 30, Sample.config)].
Proof.
  pose proof
    (@schedule_selects_rule (Sample.world Sample.config)
       (Sample.config_with "30 2 * * *" [Sample.pve1; Sample.pve2; Sample.pve3])
       "30 2 * * *" "30" "2" "*" "*" "*" initial eq_refl eq_refl) as H.
  change (VDict (Sample.config_with "30 2 * * *"
                   [Sample.pve1; Sample.pve2; Sample.pve3]))
    with Sample.config in H.
  destruct (schedule_backup (Sample.world Sample.config) Sample.config initial)
    as [st' r].
  destruct H as (_ & _ & H & _).
  apply (H 2 30); [reflexivity | lia | reflexivity | lia].
Defined.

(** ** Start-up (lines 104-141) *)

Lemma main_after_load (env : environment) (doc : value) (fuel : nat) :
  read_config env = Loaded doc ->
  main env fuel initial
  = match schedule_backup env doc
            (emit (Log INFO (MConfigLoaded (py_str doc))) initial) with
    | (st1, Ok _) =>
        (log INFO MStarted ;; sleep env 5 ;; main_loop env fuel) st1
    | (st1, Raise b) => (st1, Raise b)
    end.
Proof.
  intros H. unfold main, startup, load_config, try_except.
  unfold bind at 1. unfold bind at 1. rewrite H.
  unfold bind at 1. cbn [log]. unfold bind at 1.
  destruct (schedule_backup env doc _) as [st1 [u|b]]; reflexivity.
Qed.

Lemma schedule_backup_malformed (env : environment) (c : dict) (s : string)
    (st : state) :
  dict_get "schedule" c = Some (VStr s) ->
  List.length (PyStr.split s) <> 5%nat ->
  schedule_backup env (VDict c) st
  = (emit (Log ERROR
             (MInvalidSchedule s
                (ValueError "The schedule string must have 5 parts"))) st,
     Raise (SystemExit 1)).
Proof.
  intros Hs Hn.
  unfold schedule_backup, try_except, bind, lift, subscript.
  rewrite Hs. cbn [py_split].
  apply Nat.eqb_neq in Hn. rewrite Hn. reflexivity.
Qed.

(** C7. A schedule string that does not split into exactly five fields
    is rejected with the [ValueError] of line 116: the error is logged,
    the process exits with status 1 before the loop is announced or
    entered, and no job has been registered. *)
Theorem malformed_schedule_is_fatal (env : environment) (c : dict)
    (s : string) (fuel : nat) :
  read_config env = Loaded (VDict c) ->
  dict_get "schedule" c = Some (VStr s) ->
  List.length (PyStr.split s) <> 5%nat ->
  let '(st', r) := main env fuel initial in
  r = Raise (SystemExit 1)
  /\ exit_status r = Some 1
  /\ jobs st' = []
  /\ trace st'
     = [Log INFO (MConfigLoaded (py_str (VDict c)));
        Log ERROR (MInvalidSchedule s
                     (ValueError "The schedule string must have 5 parts"))].
Proof.
  intros Hload Hs Hn.
  rewrite (main_after_load env fuel Hload).
  rewrite (schedule_backup_malformed env _ _ Hs Hn).
  repeat split; reflexivity.
Qed.

Lemma malformed_schedule_is_fatal_witness :
  let '(st', r) :=
    main (Sample.world (VDict Sample.short_schedule)) 3 initial in
  r = Raise (SystemExit 1)
  /\ exit_status r = Some 1
  /\ jobs st' = []
  /\ logged ERROR (trace st')
     = [MInvalidSchedule "30 2 * *"
          (ValueError "The schedule string must have 5 parts")].
Proof.
  pose proof
    (@malformed_schedule_is_fatal (Sample.world (VDict Sample.short_schedule))
       Sample.short_schedule "30 2 * *" 3 eq_refl eq_refl) as H.
  destruct (main (Sample.world (VDict Sample.short_schedule)) 3 initial)
    as [st' r].
  destruct H as (Hr & He & Hj & Ht).
  - cbv. discriminate.
  - rewrite Ht. repeat split; assumption.
Defined.

(** C9. A five-field schedule with a concrete hour and [*] as minute goes
    to the daily branch, which hands the library the time [HH:0*]; the
    library rejects it with [InvalidTimeValue], so the process ends with
    status 1 before the loop is announced or entered and no job is
    registered.  (When the library's error is a [ValueError] the
    rejection is logged and [exit(1)] is called; otherwise it leaves
    [main] uncaught.) *)
Theorem wildcard_minute_is_rejected (env : environment) (c : dict)
    (s hour dom month dow : string) (fuel : nat) :
  read_config env = Loaded (VDict c) ->
  dict_get "schedule" c = Some (VStr s) ->
  PyStr.split s = ["*"; hour; dom; month; dow] ->
  hour <> "*" ->
  selected_rule "*" hour
  = Schedule.day_at (PyStr.zfill 2 hour ++ ":" ++ PyStr.zfill 2 "*")
  /\ selected_rule "*" hour = Raise (Exc InvalidTimeValue)
  /\ let '(st', r) := main env fuel initial in
     r = (if time_error_is_value_error env
          then Raise (SystemExit 1) else Raise (Exc InvalidTimeValue))
     /\ exit_status r = Some 1
     /\ jobs st' = []
     /\ trace st'
        = Log INFO (MConfigLoaded (py_str (VDict c)))
          :: (if time_error_is_value_error env
              then [Log ERROR (MInvalidSchedule s InvalidTimeValue)]
              else []).
Proof.
  intros Hload Hs Hp Hh.
  assert (Hbranch : selected_rule "*" hour
            = Schedule.day_at (PyStr.zfill 2 hour ++ ":" ++ PyStr.zfill 2 "*")).
  { unfold selected_rule. apply String.eqb_neq in Hh. rewrite Hh. reflexivity. }
  assert (Hsel : selected_rule "*" hour = Raise (Exc InvalidTimeValue)).
  { rewrite Hbranch. apply day_at_wildcard_minute. }
  split; [exact Hbranch|]. split; [exact Hsel|].
  rewrite (main_after_load env fuel Hload).
  rewrite (schedule_backup_selects env _ _ Hs Hp), Hsel.
  cbn [is_value_error].
  destruct (time_error_is_value_error env); repeat split; reflexivity.
Qed.

Lemma wildcard_minute_is_rejected_witness :
  let '(st', r) :=
    main (Sample.world (VDict Sample.wildcard_minute)) 3 initial in
  r = Raise (Exc InvalidTimeValue)
  /\ exit_status r = Some 1
  /\ jobs st' = [].
Proof.
  pose proof
    (@wildcard_minute_is_rejected (Sample.world (VDict Sample.wildcard_minute))
       Sample.wildcard_minute "* 2 * * *" "2" "*" "*" "*" 3
       eq_refl eq_refl eq_refl) as H.
  destruct (main (Sample.world (VDict Sample.wildcard_minute)) 3 initial)
    as [st' r].
  destruct H as (_ & _ & Hr & He & Hj & _).
  - discriminate.
  - repeat split; assumption.
Defined.

Lemma main_load_fault (env : environment) (e : exception) (fuel : nat) :
  read_config env = LoadFails (Fault e) ->
  exists m : message,
    main env fuel initial
    = (emit (Log ERROR m) initial, Raise (SystemExit 1)).
Proof.
  intros H. unfold main, startup, load_config, try_except.
  unfold bind at 1. unfold bind at 1. rewrite H. cbn [raised_by].
  destruct e; eexists; reflexivity.
Qed.

Lemma main_without_schedule (env : environment) (doc : value)
    (b : base_exception) (fuel : nat) :
  read_config env = Loaded doc ->
  subscript doc "schedule" = Raise b ->
  main env fuel initial
  = (emit (Log INFO (MConfigLoaded (py_str doc))) initial, Raise b)
  /\ (b = Exc (KeyError "schedule") \/ b = Exc TypeError).
Proof.
  intros Hload Hsub.
  assert (Hb : b = Exc (KeyError "schedule") \/ b = Exc TypeError).
  { destruct doc; cbn [subscript] in Hsub;
      try (right; congruence).
    destruct (dict_get "schedule" entries); [discriminate|].
    left. congruence. }
  split; [|exact Hb].
  rewrite (main_after_load env fuel Hload).
  unfold schedule_backup, try_except, bind, lift. rewrite Hsub.
  destruct Hb as [-> | ->]; reflexivity.
Qed.

Lemma main_with_rule (env : environment) (c : dict)
    (s minute hour dom month dow : string) (r : rule) (fuel : nat) :
  read_config env = Loaded (VDict c) ->
  dict_get "schedule" c = Some (VStr s) ->
  PyStr.split s = [minute; hour; dom; month; dow] ->
  selected_rule minute hour = Ok r ->
  sleep_signal env 0 = None ->
  exists st1 : state,
    main env fuel initial = main_loop env fuel st1
    /\ jobs st1 = [(r, VDict c)]
    /\ trace st1
       = [Log INFO (MConfigLoaded (py_str (VDict c)));
          Log INFO (announcement minute hour);
          Log INFO MStarted; Sleep 5]
    /\ polls st1 = 0%nat /\ spawned st1 = 0%nat.
Proof.
  intros Hload Hs Hp Hsel Hsleep.
  rewrite (main_after_load env fuel Hload).
  rewrite (schedule_backup_selects env _ _ Hs Hp), Hsel.
  unfold bind at 1. cbn [log]. unfold bind at 1.
  unfold sleep at 1. cbn [sleeps emit registered initial]. rewrite Hsleep.
  eexists. split; [reflexivity|]. repeat split; reflexivity.
Qed.

(** C5, against the claim as stated. A document holding nothing but a
    valid schedule lacks seven of the required keys, yet start-up
    succeeds: the job is registered, the loop is announced and entered,
    and after two polls the process is still running. *)
Lemma missing_keys_pass_startup :
  filter (fun k => negb (dict_has k Sample.bare)) required_keys
  = ["mailto"; "fleecing"; "bwlimit"; "pbs_storage"; "notes_template";
     "mailnotification"; "nodes"]
  /\ let '(st', r) := main (Sample.world (VDict Sample.bare)) 2 initial in
     r = Ok StillPolling
     /\ exit_status r = None
     /\ jobs st' = [(EveryMinute, VDict Sample.bare)]
     /\ In (Log INFO MStarted) (trace st')
     /\ polls st' = 2%nat.
Proof.
  split; [reflexivity|]. vm_compute.
  repeat split; try reflexivity.
  right. right. left. reflexivity.
Qed.

(** C5, as amended. Start-up ends the process with status 1, before the
    loop is announced and with nothing registered, when the
    configuration cannot be loaded (an error is then logged and
    [exit(1)] called) and when the loaded document is no mapping or has
    no [schedule] key (the [TypeError] or [KeyError] then leaves [main]
    uncaught).  No other key is looked at: a document whose [schedule]
    selects a rule gets that rule registered and reaches the polling
    loop, whatever else it lacks. *)
Theorem startup_checks_schedule_only (env : environment) (fuel : nat) :
  (forall e : exception,
     read_config env = LoadFails (Fault e) ->
     let '(st', r) := main env fuel initial in
     r = Raise (SystemExit 1) /\ exit_status r = Some 1 /\ jobs st' = []
     /\ exists m : message, trace st' = [Log ERROR m])
  /\ (forall doc : value,
        read_config env = Loaded doc ->
        (forall v, subscript doc "schedule" <> Ok v) ->
        let '(st', r) := main env fuel initial in
        (r = Raise (Exc (KeyError "schedule")) \/ r = Raise (Exc TypeError))
        /\ exit_status r = Some 1 /\ jobs st' = []
        /\ trace st' = [Log INFO (MConfigLoaded (py_str doc))])
  /\ (forall (c : dict) (s minute hour dom month dow : string) (r : rule),
        read_config env = Loaded (VDict c) ->
        dict_get "schedule" c = Some (VStr s) ->
        PyStr.split s = [minute; hour; dom; month; dow] ->
        selected_rule minute hour = Ok r ->
        sleep_signal env 0 = None ->
        exists st1 : state,
          main env fuel initial = main_loop env fuel st1
          /\ jobs st1 = [(r, VDict c)]
          /\ last (trace st1) (Sleep 0) = Sleep 5
          /\ In (Log INFO MStarted) (trace st1)).
Proof.
  split; [|split].
  - intros e H. destruct (main_load_fault env fuel H) as [m ->].
    repeat split. exists m. reflexivity.
  - intros doc Hload Hno.
    destruct (subscript doc "schedule") as [v|b] eqn:Hsub.
    + exfalso. exact (Hno v eq_refl).
    + destruct (main_without_schedule env fuel Hload Hsub) as [-> Hb].
      destruct Hb as [-> | ->]; repeat split; auto.
  - intros c s minute hour dom month dow r Hload Hs Hp Hsel Hsleep.
    destruct (main_with_rule env fuel Hload Hs Hp Hsel Hsleep)
      as (st1 & Hmain & Hjobs & Htrace & _).
    exists st1. rewrite Htrace. repeat split; try assumption.
    right. right. left. reflexivity.
Qed.

Lemma startup_checks_schedule_only_witness :
  exists st1 : state,
    main (Sample.world (VDict Sample.bare)) 1 initial
    = main_loop (Sample.world (VDict Sample.bare)) 1 st1
    /\ jobs st1 = [(EveryMinute, VDict Sample.bare)]
    /\ last (trace st1) (Sleep 0) = Sleep 5
    /\ In (Log INFO MStarted) (trace st1).
Proof.
  destruct (@startup_checks_schedule_only (Sample.world (VDict Sample.bare)) 1)
    as (_ & _ & H).
  exact (H Sample.bare "* * * * *" "*" "*" "*" "*" "*" EveryMinute
           eq_refl eq_refl eq_refl eq_refl eq_refl).
Defined.

(** ** What can be raised, and where it stops *)

Section Raising.

Context {A B : Type}.
Variable P : base_exception -> Prop.

Lemma raises_only_ret (a : A) : raises_only P (ret a).
Proof. intros st st' b H. discriminate H. Qed.

Lemma raises_only_lift (r : result A) :
  fails_only P r -> raises_only P (lift r).
Proof. intros H st st' b [= _ E]. exact (H b E). Qed.

Lemma raises_only_bind (m : M A) (k : A -> M B) :
  raises_only P m -> (forall a, raises_only P (k a)) ->
  raises_only P (bind m k).
Proof.
  intros Hm Hk st st' b. unfold bind.
  destruct (m st) as [st1 [a|b1]] eqn:E.
  - apply Hk.
  - intros [= _ <-]. exact (Hm _ _ _ E).
Qed.

Lemma raises_only_try (Q : base_exception -> Prop) (body : M A)
    (handler : base_exception -> option (M A)) :
  raises_only Q body ->
  (forall b, Q b ->
     match handler b with
     | Some h => raises_only P h
     | None => P b
     end) ->
  raises_only P (try_except body handler).
Proof.
  intros Hbody Hh st st' b. unfold try_except.
  destruct (body st) as [st1 [a|b1]] eqn:E; [discriminate|].
  specialize (Hh b1 (Hbody _ _ _ E)).
  destruct (handler b1) as [h|].
  - apply Hh.
  - intros [= _ <-]. exact Hh.
Qed.

Lemma fails_only_rbind (r : result A) (k : A -> result B) :
  fails_only P r -> (forall a, fails_only P (k a)) ->
  fails_only P (rbind r k).
Proof.
  intros Hr Hk b. destruct r as [a|b1]; cbn [rbind].
  - apply Hk.
  - intros [= <-]. apply Hr. reflexivity.
Qed.

End Raising.

Lemma raises_only_log (P : base_exception -> Prop) (lvl : level) (m : message) :
  raises_only P (log lvl m).
Proof. intros st st' b H. discriminate H. Qed.

Lemma raises_only_for_each {A} (P : base_exception -> Prop)
    (items : list A) (body : A -> M unit) :
  (forall x, raises_only P (body x)) -> raises_only P (for_each items body).
Proof.
  intros H. induction items as [|x rest IH]; cbn [for_each].
  - apply raises_only_ret.
  - apply raises_only_bind; [apply H|intros _; exact IH].
Qed.

Section PureFailures.

Variable P : base_exception -> Prop.
Hypothesis P_exc : forall e, P (Exc e).

Lemma fails_only_ok {A} (a : A) : fails_only P (Ok a).
Proof. intros b H. discriminate H. Qed.

Lemma subscript_fails (v : value) (k : string) : fails_only P (subscript v k).
Proof.
  intros b. destruct v; cbn [subscript]; try (intros [= <-]; apply P_exc).
  destruct (dict_get k entries); [discriminate|intros [= <-]; apply P_exc].
Qed.

Lemma py_in_fails (k : string) (v : value) : fails_only P (py_in k v).
Proof.
  intros b. destruct v; cbn [py_in];
    try discriminate; intros [= <-]; apply P_exc.
Qed.

Lemma py_iter_fails (v : value) : fails_only P (py_iter v).
Proof.
  intros b. destruct v; cbn [py_iter];
    try discriminate; intros [= <-]; apply P_exc.
Qed.

Lemma py_get_fails (v : value) (k : string) (d : value) :
  fails_only P (py_get v k d).
Proof.
  intros b. destruct v; cbn [py_get];
    try discriminate; intros [= <-]; apply P_exc.
Qed.

Lemma as_strings_fails (l : list value) : fails_only P (as_strings l).
Proof.
  induction l as [|v rest IH]; cbn [as_strings]; [apply fails_only_ok|].
  destruct v; try (intros b0 [= <-]; apply P_exc).
  apply fails_only_rbind; [exact IH|intros ss; apply fails_only_ok].
Qed.

Lemma full_command_fails (node_config config : value) :
  fails_only P (full_command node_config config).
Proof.
  unfold full_command, ssh_command, exclude_list, exclude_args.
  repeat (apply fails_only_rbind; [|intros ?]);
    repeat match goal with
      | |- fails_only _ (subscript _ _) => apply subscript_fails
      | |- fails_only _ (py_in _ _) => apply py_in_fails
      | |- fails_only _ (py_iter _) => apply py_iter_fails
      | |- fails_only _ (Ok _) => apply fails_only_ok
      | |- fails_only _ (rbind _ _) => apply fails_only_rbind; [|intros ?]
      | |- fails_only _ (if ?c then _ else _) => destruct c
      end.
Qed.

End PureFailures.

Section EffectFailures.

Variable env : environment.
Variable P : base_exception -> Prop.
Hypothesis P_exc : forall e, P (Exc e).
Hypothesis P_poll : forall k s, poll_signal env k = Some s -> P (raised_by s).
Hypothesis P_sleep : forall k s, sleep_signal env k = Some s -> P (raised_by s).
Hypothesis P_process : forall k s, process env k = Fails s -> P (raised_by s).

Lemma now_raises : raises_only P (now env).
Proof. intros st st' b H. discriminate H. Qed.

Lemma sleep_raises (seconds : Z) : raises_only P (sleep env seconds).
Proof.
  intros st st' b. unfold sleep.
  destruct (sleep_signal env (sleeps st)) as [s|] eqn:E; [|discriminate].
  intros [= _ <-]. exact (P_sleep _ E).
Qed.

Lemma subprocess_run_raises (command : list string) (timeout : Z) :
  raises_only P (subprocess_run env command timeout).
Proof.
  intros st st' b. unfold subprocess_run.
  destruct (process env (spawned st)) as [elapsed rc out err|s] eqn:E.
  - destruct (timeout <? elapsed); [intros [= _ <-]; apply P_exc|].
    destruct (rc =? 0); [discriminate|intros [= _ <-]; apply P_exc].
  - intros [= _ <-]. exact (P_process _ E).
Qed.

Lemma run_vzdump_raises (node_config config : value) :
  raises_only P (run_vzdump env node_config config).
Proof.
  unfold run_vzdump.
  apply raises_only_bind;
    [apply raises_only_lift, full_command_fails, P_exc|intros command].
  apply raises_only_bind;
    [apply raises_only_lift, subscript_fails, P_exc|intros shortname].
  apply raises_only_bind;
    [apply raises_only_lift, subscript_fails, P_exc|intros fqdn].
  apply raises_only_bind; [apply raises_only_log|intros _].
  apply raises_only_bind;
    [apply raises_only_lift, as_strings_fails, P_exc|intros argv].
  apply raises_only_bind; [apply raises_only_log|intros _].
  apply raises_only_try with (Q := P).
  - apply raises_only_bind; [apply subprocess_run_raises|intros output].
    apply raises_only_bind; [apply raises_only_log|intros _].
    apply raises_only_ret.
  - intros b Hb. destruct b as [e| |code]; try exact Hb.
    destruct e;
      repeat (apply raises_only_bind; [apply raises_only_log|intros _]);
      apply raises_only_ret.
Qed.

Lemma backup_job_raises (config : value) :
  raises_only P (backup_job env config).
Proof.
  unfold backup_job.
  apply raises_only_bind; [apply raises_only_log|intros _].
  apply raises_only_bind; [apply now_raises|intros start_time].
  apply raises_only_bind;
    [apply raises_only_lift, subscript_fails, P_exc|intros nodes].
  apply raises_only_bind;
    [apply raises_only_lift, py_iter_fails, P_exc|intros items].
  apply raises_only_bind.
  - apply raises_only_for_each. intros node_config. unfold backup_node.
    apply raises_only_bind; [apply run_vzdump_raises|intros ok].
    destruct ok; [apply raises_only_ret|].
    apply raises_only_bind;
      [apply raises_only_lift, py_get_fails, P_exc|intros shortname].
    apply raises_only_log.
  - intros _.
    apply raises_only_bind; [apply now_raises|intros end_time].
    apply raises_only_log.
Qed.

Lemma run_pending_raises : raises_only P (run_pending env).
Proof.
  intros st st' b. unfold run_pending.
  destruct (poll_signal env (polls st)) as [s|] eqn:E.
  - intros [= _ <-]. exact (P_poll _ E).
  - destruct (pending env (polls st)); [|discriminate].
    apply raises_only_for_each. intros job. apply backup_job_raises.
Qed.

Lemma poll_once_raises : raises_only P (poll_once env).
Proof.
  unfold poll_once.
  apply raises_only_bind; [apply now_raises|intros t].
  apply raises_only_bind; [apply raises_only_log|intros _].
  apply raises_only_bind; [apply run_pending_raises|intros _].
  apply sleep_raises.
Qed.

End EffectFailures.

(** Nothing inside a poll calls [exit]. *)
Lemma poll_once_never_exits (env : environment) :
  raises_only not_exit (poll_once env).
Proof.
  apply poll_once_raises.
  - intros e. exact I.
  - intros k [e|] _; exact I.
  - intros k [e|] _; exact I.
  - intros k [e|] _; exact I.
Qed.

(** Without Ctrl-C a poll raises ordinary exceptions only. *)
Lemma poll_once_uninterrupted (env : environment) :
  never_interrupts env -> raises_only is_exc (poll_once env).
Proof.
  intros (Hp & Hs & Hr). apply poll_once_raises.
  - intros e. exact I.
  - intros k [e|] H; [exact I|]. exfalso. exact (Hp k H).
  - intros k [e|] H; [exact I|]. exfalso. exact (Hs k H).
  - intros k [e|] H; [exact I|]. exfalso. exact (Hr k H).
Qed.

(** ** The polling loop (lines 143-155) *)

Lemma main_loop_turn (env : environment) (st : state) (fuel : nat) :
  match poll_once env st with
  | (st', Ok _) =>
      main_loop env (S fuel) st = main_loop env fuel st'
  | (st', Raise (Exc e)) =>
      main_loop env (S fuel) st
      = main_loop env fuel (emit (Log ERROR (MMainLoopError e)) st')
  | (st', Raise KeyboardInterrupt) =>
      main_loop env (S fuel) st
      = (emit (Log INFO MInterrupted) st', Ok Interrupted)
  | (_, Raise (SystemExit _)) => False
  end.
Proof.
  cbn [main_loop]. unfold loop_turn, try_except, bind. cbn beta.
  destruct (poll_once env st) as [st' [u|[e| |code]]] eqn:E;
    try reflexivity.
  exact (@poll_once_never_exits env _ _ _ E).
Qed.

(** C8. In the polling loop every turn whose poll raises an exception
    other than the interrupt has it logged and is followed by the next
    turn; a turn interrupted by [KeyboardInterrupt] logs the shutdown and
    leaves the loop; nothing else ends the loop: however long it is
    observed it is still polling or was interrupted, no exception leaves
    it, and without an interrupt it polls for ever. *)
Theorem main_loop_survives_faults (env : environment) :
  (forall (st : state) (fuel : nat),
     match poll_once env st with
     | (st', Ok _) =>
         main_loop env (S fuel) st = main_loop env fuel st'
     | (st', Raise (Exc e)) =>
         main_loop env (S fuel) st
         = main_loop env fuel (emit (Log ERROR (MMainLoopError e)) st')
     | (st', Raise KeyboardInterrupt) =>
         main_loop env (S fuel) st
         = (emit (Log INFO MInterrupted) st', Ok Interrupted)
     | (_, Raise (SystemExit _)) => False
     end)
  /\ (forall (fuel : nat) (st : state),
        let '(st', r) := main_loop env fuel st in
        r = Ok StillPolling
        \/ (r = Ok Interrupted
            /\ last (trace st') (Sleep 0) = Log INFO MInterrupted))
  /\ (never_interrupts env ->
      forall (fuel : nat) (st : state),
        snd (main_loop env fuel st) = Ok StillPolling).
Proof.
  split; [exact (main_loop_turn env)|]. split.
  - induction fuel as [|fuel IH]; intros st.
    + left. reflexivity.
    + pose proof (main_loop_turn env st fuel) as H.
      destruct (poll_once env st) as [st' [u|[e| |code]]].
      * rewrite H. apply IH.
      * rewrite H. apply IH.
      * rewrite H. right. split; [reflexivity|].
        cbn [emit trace]. apply last_last.
      * destruct H.
  - intros Hquiet. induction fuel as [|fuel IH]; intros st.
    + reflexivity.
    + pose proof (main_loop_turn env st fuel) as H.
      destruct (poll_once env st) as [st' [u|[e| |code]]] eqn:E.
      * rewrite H. apply IH.
      * rewrite H. apply IH.
      * destruct (@poll_once_uninterrupted env Hquiet _ _ _ E).
      * destruct H.
Qed.

Lemma main_loop_survives_faults_witness :
  snd (main_loop (Sample.world (VDict Sample.bare)) 4 initial)
  = Ok StillPolling.
Proof.
  destruct (@main_loop_survives_faults (Sample.world (VDict Sample.bare)))
    as (_ & _ & H).
  refine (H _ 4%nat initial). unfold never_interrupts.
  split; [|split]; intros k; try discriminate.
  destruct k as [|[|k]]; discriminate.
Defined.

Lemma main_loop_returns (env : environment) (fuel : nat) :
  forall st : state,
    exists (st' : state) (e : loop_end), main_loop env fuel st = (st', Ok e).
Proof.
  induction fuel as [|fuel IH]; intros st.
  - exists st, StillPolling. reflexivity.
  - pose proof (main_loop_turn env st fuel) as H.
    destruct (poll_once env st) as [st' [u|[e| |code]]].
    + rewrite H. apply IH.
    + rewrite H. apply IH.
    + rewrite H. eexists. eexists. reflexivity.
    + destruct H.
Qed.

(** ** A missing key inside a cycle *)

Lemma for_each_app {A} (a b : list A) (body : A -> M unit) :
  forall st : state,
    for_each (a ++ b) body st
    = bind (for_each a body) (fun _ => for_each b body) st.
Proof.
  induction a as [|x a IH]; intros st; [reflexivity|].
  cbn [app for_each]. unfold bind.
  destruct (body x st) as [st1 [u|e]]; [|reflexivity].
  rewrite IH. reflexivity.
Qed.

Lemma ssh_command_lacking (c bad : dict) :
  lacks_command_key c bad = true ->
  exists key : string,
    In key ("fqdn" :: "shortname" :: command_keys)
    /\ ssh_command (VDict bad) (VDict c) = Raise (Exc (KeyError key)).
Proof.
  unfold lacks_command_key, command_keys, ssh_command, subscript, dict_has.
  cbn [existsb]. intros H.
  destruct (dict_get "fqdn" bad);
    [|exists "fqdn"; split; [simpl; tauto|reflexivity]].
  destruct (dict_get "mailto" c);
    [|exists "mailto"; split; [simpl; tauto|reflexivity]].
  destruct (dict_get "fleecing" c);
    [|exists "fleecing"; split; [simpl; tauto|reflexivity]].
  destruct (dict_get "bwlimit" c);
    [|exists "bwlimit"; split; [simpl; tauto|reflexivity]].
  destruct (dict_get "pbs_storage" c);
    [|exists "pbs_storage"; split; [simpl; tauto|reflexivity]].
  destruct (dict_get "notes_template" c);
    [|exists "notes_template"; split; [simpl; tauto|reflexivity]].
  destruct (dict_get "mailnotification" c);
    [|exists "mailnotification"; split; [simpl; tauto|reflexivity]].
  destruct (dict_get "shortname" bad);
    [|exists "shortname"; split; [simpl; tauto|reflexivity]].
  discriminate H.
Qed.

(** The cycle up to and including the node whose command cannot be
    assembled. *)
Lemma backup_job_aborts (env : environment) (c : dict)
    (pre post : list value) (bad : value) (b : base_exception) (st : state) :
  dict_get "nodes" c = Some (VList (pre ++ bad :: post)) ->
  forallb (command_ready (VDict c)) pre = true ->
  (forall i : nat, (i < List.length pre)%nat ->
     interrupted (process env (spawned st + i)) = false) ->
  ssh_command bad (VDict c) = Raise b ->
  exists st' : state,
    backup_job env (VDict c) st = (st', Raise b)
    /\ spawns (trace st')
       = (spawns (trace st)
          ++ map (fun n => (argv_or_nil (VDict c) n, 1200)) pre)%list
    /\ completions (trace st') = completions (trace st).
Proof.
  intros Hnodes Hready Hquiet Hbad.
  unfold backup_job, bind at 1. cbn [log].
  unfold bind at 1. cbn [now].
  unfold bind at 1, lift at 1, subscript. rewrite Hnodes.
  unfold bind at 1, lift at 1. cbn [py_iter].
  unfold bind at 1. rewrite for_each_app. unfold bind at 1.
  match goal with
  | |- context [for_each pre _ ?s] =>
      destruct (for_each_nodes env (VDict c) pre s Hready)
        as (st1 & Hrun & Hsp & _ & _ & _ & Hdone);
      [exact Hquiet|rewrite Hrun]
  end.
  cbn [emit trace] in Hsp, Hdone.
  cbn [for_each]. unfold bind at 1. unfold backup_node at 1.
  unfold bind at 1. rewrite (ssh_command_missing_key _ _ Hbad).
  exists st1. split; [reflexivity|].
  rewrite Hsp, Hdone, spawns_app, completions_app. simpl.
  rewrite !app_nil_r. split; reflexivity.
Qed.

(** The state in which [run_pending] starts the due job. *)
Lemma poll_once_job_raises (env : environment) (config : value) (r : rule)
    (b : base_exception) (st st' : state) :
  jobs st = [(r, config)] ->
  poll_signal env (polls st) = None ->
  pending env (polls st) = true ->
  backup_job env config
    {| trace := trace st ++ [Log DEBUG (MPoll (clock env (clock_reads st)))];
       clock_reads := S (clock_reads st); spawned := spawned st;
       polls := S (polls st); sleeps := sleeps st; jobs := jobs st |}
  = (st', Raise b) ->
  poll_once env st = (st', Raise b).
Proof.
  intros Hjobs Hpoll Hdue Hrun.
  unfold poll_once, bind, now, log, emit, run_pending.
  cbn [polls jobs trace clock_reads spawned sleeps].
  rewrite Hpoll, Hdue, Hjobs. cbn [for_each snd]. unfold bind.
  rewrite Hjobs in Hrun. rewrite Hrun. reflexivity.
Qed.

(** C10. When the global configuration lacks one of [mailto],
    [fleecing], [bwlimit], [pbs_storage], [notes_template],
    [mailnotification], or a node entry lacks [fqdn] or [shortname],
    and the entries before that node were invoked and returned, the
    invocation of that node raises [KeyError] for one of these keys
    with nothing logged, spawned or classified; the cycle ends with that
    [KeyError] after spawning the commands of the preceding nodes only
    and without logging a completion; and the turn of the main loop that
    ran the cycle logs the exception and hands over to the next turn,
    the loop never letting an exception out. *)
Theorem missing_key_aborts_cycle (env : environment) (c bad : dict)
    (pre post : list value) (st : state) :
  dict_get "nodes" c = Some (VList (pre ++ VDict bad :: post)) ->
  forallb (command_ready (VDict c)) pre = true ->
  (forall i : nat, (i < List.length pre)%nat ->
     interrupted (process env (spawned st + i)) = false) ->
  lacks_command_key c bad = true ->
  exists key : string,
    In key ("fqdn" :: "shortname" :: command_keys)
    /\ (forall st0 : state,
          run_vzdump env (VDict bad) (VDict c) st0
          = (st0, Raise (Exc (KeyError key))))
    /\ (let '(st', r) := backup_job env (VDict c) st in
        r = Raise (Exc (KeyError key))
        /\ spawns (trace st')
           = (spawns (trace st)
              ++ map (fun n => (argv_or_nil (VDict c) n, 1200)) pre)%list
        /\ completions (trace st') = completions (trace st))
    /\ (forall (r : rule) (fuel : nat),
          jobs st = [(r, VDict c)] ->
          poll_signal env (polls st) = None ->
          pending env (polls st) = true ->
          exists st2 : state,
            main_loop env (S fuel) st = main_loop env fuel st2
            /\ last (trace st2) (Sleep 0)
               = Log ERROR (MMainLoopError (KeyError key))
            /\ spawns (trace st2)
               = (spawns (trace st)
                  ++ map (fun n => (argv_or_nil (VDict c) n, 1200)) pre)%list
            /\ completions (trace st2) = completions (trace st)
            /\ exists (st3 : state) (e : loop_end),
                 main_loop env fuel st2 = (st3, Ok e)).
Proof.
  intros Hnodes Hready Hquiet Hlack.
  destruct (ssh_command_lacking _ _ Hlack) as (key & Hkey & Hcmd).
  exists key. split; [exact Hkey|]. split; [|split].
  - intros st0. exact (@ssh_command_missing_key _ _ _ Hcmd env st0).
  - destruct (@backup_job_aborts env c pre post (VDict bad) _ st
                Hnodes Hready Hquiet Hcmd)
      as (st' & -> & Hsp & Hdone).
    split; [reflexivity|]. split; assumption.
  - intros r fuel Hjobs Hpoll Hdue.
    destruct (@backup_job_aborts env c pre post (VDict bad) _
                {| trace := trace st
                            ++ [Log DEBUG (MPoll (clock env (clock_reads st)))];
                   clock_reads := S (clock_reads st); spawned := spawned st;
                   polls := S (polls st); sleeps := sleeps st;
                   jobs := jobs st |}
                Hnodes Hready Hquiet Hcmd)
      as (st' & Hrun & Hsp & Hdone).
    cbn [trace] in Hsp, Hdone.
    pose proof (@poll_once_job_raises env _ _ _ st _ Hjobs Hpoll Hdue Hrun)
      as Hturn.
    pose proof (main_loop_turn env st fuel) as Hloop.
    rewrite Hturn in Hloop.
    exists (emit (Log ERROR (MMainLoopError (KeyError key))) st').
    split; [exact Hloop|]. cbn [emit trace].
    rewrite spawns_app, completions_app, Hsp, Hdone.
    rewrite spawns_app, completions_app. simpl. rewrite !app_nil_r.
    split; [apply last_last|]. split; [reflexivity|]. split; [reflexivity|].
    apply main_loop_returns.
Qed.

Lemma missing_key_aborts_cycle_witness :
  exists key : string,
    In key ("fqdn" :: "shortname" :: command_keys)
    /\ (forall st0 : state,
          run_vzdump (Sample.world (VDict Sample.broken)) Sample.nameless
            (VDict Sample.broken) st0
          = (st0, Raise (Exc (KeyError key))))
    /\ (let '(st', r) :=
          backup_job (Sample.world (VDict Sample.broken))
            (VDict Sample.broken) initial in
        r = Raise (Exc (KeyError key))
        /\ List.length (spawns (trace st')) = 1%nat
        /\ completions (trace st') = []).
Proof.
  destruct (@missing_key_aborts_cycle (Sample.world (VDict Sample.broken))
              Sample.broken [("fqdn", VStr "pve9.lan")]
              [Sample.pve1] [Sample.pve3] initial eq_refl eq_refl)
    as (key & Hkey & Hrun & Hjob & _).
  - intros i _. destruct i as [|[|i]]; reflexivity.
  - reflexivity.
  - exists key. split; [exact Hkey|]. split; [exact Hrun|].
    destruct (backup_job (Sample.world (VDict Sample.broken))
                (VDict Sample.broken) initial) as [st' r].
    destruct Hjob as (Hr & Hsp & Hdone).
    split; [exact Hr|]. split; [rewrite Hsp; reflexivity|exact Hdone].
Defined.

Example broken_cycle_in_the_loop :
  let '(st', r) := main (Sample.world (VDict Sample.broken)) 2 initial in
  r = Ok StillPolling
  /\ logged ERROR (trace st')
     = [MMainLoopError (KeyError "shortname");
        MBackupError "pve1"; MReturnCode 1; MStdout "";
        MStderr "vzdump: failed";
        MMainLoopError (KeyError "shortname")]
  /\ List.length (spawns (trace st')) = 2%nat
  /\ completions (trace st') = [].
Proof. vm_compute. repeat split; reflexivity. Qed.

(** ** Which configurations reach ssh *)

Lemma exclude_list_resolves (node_config config : dict) :
  exclude_list (VDict node_config) (VDict config)
  = Ok (effective_exclusion_spec node_config config).
Proof.
  unfold exclude_list, effective_exclusion_spec, py_in, subscript, rbind.
  rewrite !dict_has_get.
  destruct (dict_get "exclude_vms" node_config) as [v|]; [reflexivity|].
  destruct (dict_get "exclude_vms" config) as [v|]; reflexivity.
Qed.

Lemma as_strings_ok (l : list value) :
  match as_strings l with
  | Ok _ => forallb is_str l = true
  | Raise b => forallb is_str l = false /\ b = Exc TypeError
  end.
Proof.
  induction l as [|v rest IH]; [reflexivity|].
  destruct v; cbn [as_strings forallb is_str andb];
    try (split; reflexivity).
  destruct (as_strings rest) as [ss|b]; exact IH.
Qed.


Lemma exclude_args_ok (v : value) :
  match exclude_args v with
  | Ok _ => (negb (py_truthy v) || iterable v)%bool = true
  | Raise b => (negb (py_truthy v) || iterable v)%bool = false
               /\ b = Exc TypeError
  end.
Proof.
  unfold exclude_args.
  destruct v as [|b|z|s|l|d]; cbn [py_truthy py_iter iterable negb orb rbind].
  - reflexivity.
  - destruct b; [split|]; reflexivity.
  - destruct (z =? 0); [|split]; reflexivity.
  - destruct (String.eqb s ""); reflexivity.
  - destruct l; reflexivity.
  - destruct d; reflexivity.
Qed.

(** The command lines 38-54 build from two mappings holding all eight
    keys keeps the four raw settings and the short name as they are. *)
Lemma ssh_command_items (config node_config : dict) :
  match ssh_command (VDict node_config) (VDict config) with
  | Ok base =>
      (present command_keys config
       && present ["fqdn"; "shortname"] node_config)%bool = true
      /\ forallb is_str base
         = (string_valued raw_settings config
            && string_valued ["shortname"] node_config)%bool
  | Raise _ =>
      (present command_keys config
       && present ["fqdn"; "shortname"] node_config)%bool = false
  end.
Proof.
  unfold ssh_command, subscript, present, string_valued, command_keys,
    raw_settings, dict_has.
  cbn [forallb rbind].
  destruct (dict_get "fqdn" node_config) as [fqdn|];
    [|cbn; rewrite ?andb_false_r; reflexivity].
  destruct (dict_get "mailto" config) as [mailto|]; [|reflexivity].
  destruct (dict_get "fleecing" config) as [fleecing|]; [|reflexivity].
  destruct (dict_get "bwlimit" config) as [bwlimit|]; [|reflexivity].
  destruct (dict_get "pbs_storage" config) as [pbs_storage|]; [|reflexivity].
  destruct (dict_get "notes_template" config) as [notes|]; [|reflexivity].
  destruct (dict_get "mailnotification" config) as [notif|]; [|reflexivity].
  destruct (dict_get "shortname" node_config) as [shortname|]; [|reflexivity].
  cbn [rbind forallb is_str andb]. split; [reflexivity|].
  destruct mailto; cbn [andb]; try reflexivity.
  destruct pbs_storage; cbn [andb]; try reflexivity.
  destruct notes; cbn [andb]; try reflexivity.
  destruct notif; reflexivity.
Qed.

Lemma forallb_is_str_app (a b : list value) :
  forallb is_str (a ++ b) = (forallb is_str a && forallb is_str b)%bool.
Proof. apply forallb_app. Qed.


Example well_formed_samples :
  well_formed (Sample.config_with "* * * * *" []) Sample.settings = false
  /\ command_ready Sample.config Sample.pve3 = true
  /\ command_ready (VDict Scenario.two_recipients) Sample.pve1 = false
  /\ command_ready (VDict Scenario.single_exclusion) Sample.pve1 = false.
Proof. repeat split; reflexivity. Qed.

Lemma run_vzdump_join_fails (env : environment) (node_config config : value)
    (command : list value) (st : state) :
  full_command node_config config = Ok command ->
  forallb is_str command = false ->
  exists shortname fqdn : value,
    subscript node_config "shortname" = Ok shortname
    /\ subscript node_config "fqdn" = Ok fqdn
    /\ run_vzdump env node_config config st
       = (emit (Log INFO (MRunning (py_str shortname) (py_str fqdn))) st,
          Raise (Exc TypeError)).
Proof.
  intros Hc Hstr.
  destruct (full_command_reads _ _ Hc) as (fqdn & sn & Hf & Hs).
  exists sn, fqdn. split; [exact Hs|]. split; [exact Hf|].
  pose proof (as_strings_ok command) as Ha.
  destruct (as_strings command) as [argv|b] eqn:E; [congruence|].
  destruct Ha as [_ ->].
  unfold run_vzdump, bind, lift. rewrite Hc, Hs, Hf. cbn [log].
  rewrite E. reflexivity.
Qed.

(** X2. When all keys are present and the exclusion value is usable but
    one of [mailto], [pbs_storage], [notes_template], [mailnotification]
    or the node's [shortname] is no string, [run_vzdump] writes the
    "running" record and then raises [TypeError] from the join of line
    69, outside the [try]: nothing is spawned and no failure is
    returned. *)
Theorem non_string_setting_raises (env : environment)
    (config node_config : dict) (st : state) :
  (present command_keys config
   && present ["fqdn"; "shortname"] node_config)%bool = true ->
  (negb (py_truthy (effective_exclusion_spec node_config config))
   || iterable (effective_exclusion_spec node_config config))%bool = true ->
  (string_valued raw_settings config
   && string_valued ["shortname"] node_config)%bool = false ->
  exists shortname fqdn : string,
    run_vzdump env (VDict node_config) (VDict config) st
    = (emit (Log INFO (MRunning shortname fqdn)) st, Raise (Exc TypeError)).
Proof.
  intros Hkeys Hex Hstr.
  pose proof (ssh_command_items config node_config) as Hbase.
  destruct (ssh_command (VDict node_config) (VDict config)) as [base|b] eqn:Eb;
    [|congruence].
  destruct Hbase as [_ Hitems].
  pose proof (exclude_args_ok (effective_exclusion_spec node_config config))
    as Hargs.
  destruct (exclude_args (effective_exclusion_spec node_config config))
    as [extra|b] eqn:Ee; [|destruct Hargs; congruence].
  assert (Hc : full_command (VDict node_config) (VDict config)
               = Ok (base ++ extra)%list).
  { unfold full_command. rewrite Eb, exclude_list_resolves. cbn [rbind].
    rewrite Ee. reflexivity. }
  assert (Hno : forallb is_str (base ++ extra) = false).
  { rewrite forallb_is_str_app, Hitems, Hstr. reflexivity. }
  destruct (@run_vzdump_join_fails env _ _ _ st Hc Hno)
    as (sn & fq & _ & _ & Hrun).
  exists (py_str sn), (py_str fq). exact Hrun.
Qed.

Lemma non_string_setting_raises_witness :
  exists shortname fqdn : string,
    run_vzdump (Sample.world (VDict Scenario.two_recipients)) Sample.pve1
      (VDict Scenario.two_recipients) initial
    = (emit (Log INFO (MRunning shortname fqdn)) initial,
       Raise (Exc TypeError)).
Proof.
  exact (@non_string_setting_raises
           (Sample.world (VDict Scenario.two_recipients))
           Scenario.two_recipients
           [("shortname", VStr "pve1"); ("fqdn", VStr "pve1.lan")]
           initial eq_refl eq_refl eq_refl).
Defined.

Lemma full_command_raises (env : environment) (node_config config : value)
    (b : base_exception) (st : state) :
  full_command node_config config = Raise b ->
  run_vzdump env node_config config st = (st, Raise b).
Proof.
  intros H. unfold run_vzdump, bind, lift. rewrite H. reflexivity.
Qed.

Lemma chars_as_values (s : string) :
  map py_str (map VStr (PyStr.chars s)) = PyStr.chars s.
Proof.
  induction s as [|c rest IH]; [reflexivity|].
  cbn [PyStr.chars map py_str]. rewrite IH. reflexivity.
Qed.

(** X3. What the effective [exclude_vms] value does to the command once
    its base is built: a falsy value (None, an empty list, mapping or
    string, 0, False) adds nothing; a non-empty string is walked
    character by character, each character joined by commas; a truthy
    value that cannot be iterated (a non-zero number, True) makes
    [run_vzdump] raise [TypeError] before anything is logged or
    spawned. *)
Theorem exclusion_value_shapes (env : environment)
    (config node_config : dict) (base : list value) (st : state) :
  ssh_command (VDict node_config) (VDict config) = Ok base ->
  (py_truthy (effective_exclusion_spec node_config config) = false ->
   full_command (VDict node_config) (VDict config) = Ok base)
  /\ (forall s : string,
        effective_exclusion_spec node_config config = VStr s ->
        s <> "" ->
        full_command (VDict node_config) (VDict config)
        = Ok (base ++ [VStr "--exclude";
                       VStr (PyStr.join "," (PyStr.chars s))])%list)
  /\ (py_truthy (effective_exclusion_spec node_config config) = true ->
      iterable (effective_exclusion_spec node_config config) = false ->
      run_vzdump env (VDict node_config) (VDict config) st
      = (st, Raise (Exc TypeError))).
Proof.
  intros Hbase.
  assert (Hfull : full_command (VDict node_config) (VDict config)
                  = (let? extra :=
                       exclude_args (effective_exclusion_spec node_config config)
                     in Ok (base ++ extra)%list)).
  { unfold full_command. rewrite Hbase, exclude_list_resolves. reflexivity. }
  split; [|split].
  - intros Hf. rewrite Hfull. unfold exclude_args. rewrite Hf.
    cbn [rbind]. rewrite app_nil_r. reflexivity.
  - intros s Hv Hs. rewrite Hfull, Hv. unfold exclude_args.
    apply String.eqb_neq in Hs. cbn [py_truthy py_iter]. rewrite Hs.
    cbn [negb rbind]. rewrite chars_as_values. reflexivity.
  - intros Ht Hi. apply full_command_raises. rewrite Hfull.
    pose proof (exclude_args_ok (effective_exclusion_spec node_config config))
      as Hargs.
    rewrite Ht, Hi in Hargs. cbn [negb orb] in Hargs.
    destruct (exclude_args (effective_exclusion_spec node_config config))
      as [extra|b]; [discriminate|].
    destruct Hargs as [_ ->]. reflexivity.
Qed.

Lemma exclusion_value_shapes_witness :
  run_vzdump (Sample.world (VDict Scenario.single_exclusion)) Sample.pve1
    (VDict Scenario.single_exclusion) initial
  = (initial, Raise (Exc TypeError)).
Proof.
  destruct (@exclusion_value_shapes
              (Sample.world (VDict Scenario.single_exclusion))
              Scenario.single_exclusion
              [("shortname", VStr "pve1"); ("fqdn", VStr "pve1.lan")]
              _ initial eq_refl) as (_ & _ & H).
  exact (H eq_refl eq_refl).
Defined.

Example exclusion_given_as_text :
  exclude_args (VStr "100,101")
  = Ok [VStr "--exclude"; VStr "1,0,0,,,1,0,1"].
Proof. reflexivity. Qed.

(** ** Ctrl-C *)

Lemma backup_node_interrupted (env : environment) (config node_config : value)
    (st : state) :
  command_ready config node_config = true ->
  process env (spawned st) = Fails Interrupt ->
  exists st' : state,
    backup_node env config node_config st = (st', Raise KeyboardInterrupt)
    /\ spawns (trace st')
       = (spawns (trace st) ++ [(argv_or_nil config node_config, 1200)])%list
    /\ completions (trace st') = completions (trace st)
    /\ logged WARNING (trace st') = logged WARNING (trace st)
    /\ logged ERROR (trace st') = logged ERROR (trace st).
Proof.
  intros Hr Hi.
  destruct (command_ready_inv _ _ Hr)
    as (command & argv & sn & fqdn & Hc & Ha & Hs & Hf & Hargv & _).
  unfold backup_node, bind.
  rewrite (run_vzdump_unfold env _ _ st Hc Ha Hs Hf). cbn zeta.
  rewrite Hi, Hargv. eexists. split; [reflexivity|].
  cbn [emit trace].
  rewrite !spawns_app, !completions_app, !logged_app. simpl.
  rewrite !app_nil_r. repeat split; reflexivity.
Qed.

(** A cycle in which the entry after [pre] raises. *)
Lemma backup_job_stops (env : environment) (c : dict)
    (pre post : list value) (n : value) (b : base_exception)
    (extra : list (list string * Z)) (st : state) :
  dict_get "nodes" c = Some (VList (pre ++ n :: post)) ->
  forallb (command_ready (VDict c)) pre = true ->
  (forall i : nat, (i < List.length pre)%nat ->
     interrupted (process env (spawned st + i)) = false) ->
  (forall st1 : state,
     spawned st1 = (spawned st + List.length pre)%nat ->
     exists st2 : state,
       backup_node env (VDict c) n st1 = (st2, Raise b)
       /\ spawns (trace st2) = (spawns (trace st1) ++ extra)%list
       /\ completions (trace st2) = completions (trace st1)) ->
  exists st' : state,
    backup_job env (VDict c) st = (st', Raise b)
    /\ spawns (trace st')
       = (spawns (trace st)
          ++ map (fun n => (argv_or_nil (VDict c) n, 1200)) pre
          ++ extra)%list
    /\ completions (trace st') = completions (trace st).
Proof.
  intros Hnodes Hready Hquiet Hnode.
  unfold backup_job, bind at 1. cbn [log].
  unfold bind at 1. cbn [now].
  unfold bind at 1, lift at 1, subscript. rewrite Hnodes.
  unfold bind at 1, lift at 1. cbn [py_iter].
  unfold bind at 1. rewrite for_each_app. unfold bind at 1.
  match goal with
  | |- context [for_each pre _ ?s] =>
      destruct (for_each_nodes env (VDict c) pre s Hready)
        as (st1 & Hrun & Hsp & _ & Hcount & _ & Hdone);
      [exact Hquiet|rewrite Hrun]
  end.
  cbn [emit trace spawned] in Hsp, Hdone, Hcount.
  destruct (Hnode st1 Hcount) as (st2 & Hbad & Hsp2 & Hdone2).
  cbn [for_each]. unfold bind at 1. rewrite Hbad.
  exists st2. split; [reflexivity|].
  rewrite Hsp2, Hdone2, Hsp, Hdone, spawns_app, completions_app. simpl.
  rewrite !app_nil_r, <- app_assoc. split; reflexivity.
Qed.

(** X4. Ctrl-C while the command of a node runs is not caught by
    [run_vzdump] (its last clause is [except Exception]): the cycle ends
    there with [KeyboardInterrupt], having spawned the commands up to
    and including that node and none after it, and without logging a
    completion; the main loop then logs the shutdown and ends, and the
    process leaves with status 0. *)
Theorem interrupt_stops_cycle (env : environment) (c : dict)
    (pre post : list value) (n : value) (st : state) :
  dict_get "nodes" c = Some (VList (pre ++ n :: post)) ->
  forallb (command_ready (VDict c)) (pre ++ [n]) = true ->
  (forall i : nat, (i < List.length pre)%nat ->
     interrupted (process env (spawned st + i)) = false) ->
  process env (spawned st + List.length pre) = Fails Interrupt ->
  (let '(st', r) := backup_job env (VDict c) st in
   r = Raise KeyboardInterrupt
   /\ spawns (trace st')
      = (spawns (trace st)
         ++ map (fun n => (argv_or_nil (VDict c) n, 1200)) (pre ++ [n]))%list
   /\ completions (trace st') = completions (trace st))
  /\ (forall (r : rule) (fuel : nat),
        jobs st = [(r, VDict c)] ->
        poll_signal env (polls st) = None ->
        pending env (polls st) = true ->
        let '(st2, e) := main_loop env (S fuel) st in
        e = Ok Interrupted
        /\ exit_status e = Some 0
        /\ last (trace st2) (Sleep 0) = Log INFO MInterrupted
        /\ spawns (trace st2)
           = (spawns (trace st)
              ++ map (fun n => (argv_or_nil (VDict c) n, 1200))
                   (pre ++ [n]))%list
        /\ completions (trace st2) = completions (trace st)).
Proof.
  intros Hnodes Hready Hquiet Hint.
  rewrite forallb_app in Hready. apply andb_prop in Hready as [Hpre Hn].
  cbn [forallb] in Hn. rewrite andb_true_r in Hn.
  assert (Hstop : forall st0 : state,
            spawned st0 = spawned st ->
            exists st' : state,
              backup_job env (VDict c) st0 = (st', Raise KeyboardInterrupt)
              /\ spawns (trace st')
                 = (spawns (trace st0)
                    ++ map (fun n => (argv_or_nil (VDict c) n, 1200))
                         (pre ++ [n]))%list
              /\ completions (trace st') = completions (trace st0)).
  { intros st0 Hsame.
    destruct (@backup_job_stops env c pre post n KeyboardInterrupt
                [(argv_or_nil (VDict c) n, 1200)] st0 Hnodes Hpre)
      as (st' & Hrun & Hsp & Hdone).
    - intros i Hi. rewrite Hsame. apply Hquiet. exact Hi.
    - intros st1 Hcount.
      destruct (backup_node_interrupted env (VDict c) n st1 Hn)
        as (st2 & Hrun & Hsp & Hdone & _).
      + rewrite Hcount, Hsame. exact Hint.
      + exists st2. repeat split; assumption.
    - exists st'. split; [exact Hrun|]. rewrite map_app. cbn [map].
      split; assumption. }
  split.
  - destruct (Hstop st eq_refl) as (st' & -> & Hsp & Hdone).
    repeat split; assumption.
  - intros r fuel Hjobs Hpoll Hdue.
    destruct (Hstop
                {| trace := trace st
                            ++ [Log DEBUG (MPoll (clock env (clock_reads st)))];
                   clock_reads := S (clock_reads st); spawned := spawned st;
                   polls := S (polls st); sleeps := sleeps st;
                   jobs := jobs st |} eq_refl)
      as (st' & Hrun & Hsp & Hdone).
    cbn [trace] in Hsp, Hdone.
    pose proof (@poll_once_job_raises env _ _ _ st _ Hjobs Hpoll Hdue Hrun)
      as Hturn.
    pose proof (main_loop_turn env st fuel) as Hloop.
    rewrite Hturn in Hloop. rewrite Hloop.
    cbn [emit trace].
    rewrite spawns_app, completions_app, Hsp, Hdone.
    rewrite spawns_app, completions_app. simpl. rewrite !app_nil_r.
    repeat split. apply last_last.
Qed.

Lemma interrupt_stops_cycle_witness :
  let '(st', r) :=
    backup_job (Scenario.interrupted_backup Sample.config) Sample.config
      initial in
  r = Raise KeyboardInterrupt
  /\ List.length (spawns (trace st')) = 2%nat
  /\ completions (trace st') = [].
Proof.
  destruct (@interrupt_stops_cycle
              (Scenario.interrupted_backup Sample.config)
              (Sample.config_with "30 2 * * *"
                 [Sample.pve1; Sample.pve2; Sample.pve3])
              [Sample.pve1] [Sample.pve3] Sample.pve2 initial
              eq_refl eq_refl) as [H _].
  - intros i Hi. destruct i as [|i]; [reflexivity|].
    cbn [List.length] in Hi. lia.
  - reflexivity.
  - change (VDict (Sample.config_with "30 2 * * *"
                     [Sample.pve1; Sample.pve2; Sample.pve3]))
      with Sample.config in H.
    destruct (backup_job (Scenario.interrupted_backup Sample.config)
                Sample.config initial) as [st' r].
    destruct H as (Hr & Hsp & Hdone).
    split; [exact Hr|]. split; [rewrite Hsp; reflexivity|exact Hdone].
Defined.

(** X5. Ctrl-C before the loop is not handled: line 141 and the call of
    [load_config] stand outside the [try] of the loop.  An interrupt
    while the configuration is read leaves [main] with nothing logged;
    an interrupt during the five-second pause after a successful
    start-up leaves [main] with the job registered, the start announced,
    no shutdown record and no poll.  The process ends with the status of
    an uncaught interrupt, not with 0. *)
Theorem interrupt_before_loop (env : environment) (fuel : nat) :
  (read_config env = LoadFails Interrupt ->
   main env fuel initial = (initial, Raise KeyboardInterrupt))
  /\ (forall (c : dict) (s minute hour dom month dow : string) (r : rule),
        read_config env = Loaded (VDict c) ->
        dict_get "schedule" c = Some (VStr s) ->
        PyStr.split s = [minute; hour; dom; month; dow] ->
        selected_rule minute hour = Ok r ->
        sleep_signal env 0 = Some Interrupt ->
        let '(st', e) := main env fuel initial in
        e = Raise KeyboardInterrupt
        /\ exit_status e = Some 130
        /\ jobs st' = [(r, VDict c)]
        /\ polls st' = 0%nat
        /\ trace st'
           = [Log INFO (MConfigLoaded (py_str (VDict c)));
              Log INFO (announcement minute hour);
              Log INFO MStarted; Sleep 5]).
Proof.
  split.
  - intros H. unfold main, startup, load_config, try_except.
    unfold bind at 1. unfold bind at 1. rewrite H. reflexivity.
  - intros c s minute hour dom month dow r Hload Hs Hp Hsel Hsleep.
    rewrite (main_after_load env fuel Hload).
    rewrite (schedule_backup_selects env _ _ Hs Hp), Hsel.
    unfold bind at 1. cbn [log]. unfold bind at 1.
    unfold sleep at 1. cbn [sleeps emit registered initial]. rewrite Hsleep.
    repeat split.
Qed.

Lemma interrupt_before_loop_witness :
  let '(st', e) :=
    main (Scenario.interrupted_warm_up Sample.config) 3 initial in
  e = Raise KeyboardInterrupt
  /\ exit_status e = Some 130
  /\ jobs st' = [(DailyAt 2 30, Sample.config)]
  /\ polls st' = 0%nat
  /\ last (trace st') (Sleep 0) = Sleep 5.
Proof.
  destruct (@interrupt_before_loop
              (Scenario.interrupted_warm_up Sample.config) 3) as [_ H].
  specialize (H (Sample.config_with "30 2 * * *"
                   [Sample.pve1; Sample.pve2; Sample.pve3])
                "30 2 * * *" "30" "2" "*" "*" "*" (DailyAt 2 30)
                eq_refl eq_refl eq_refl eq_refl eq_refl).
  change (VDict (Sample.config_with "30 2 * * *"
                   [Sample.pve1; Sample.pve2; Sample.pve3]))
    with Sample.config in H.
  destruct (main (Scenario.interrupted_warm_up Sample.config) 3 initial)
    as [st' e].
  destruct H as (He & Hx & Hj & Hp & Ht). rewrite Ht.
  repeat split; assumption.
Defined.

(** ** Odd shapes of the configuration *)

Lemma run_vzdump_on_text (env : environment) (s : string) (config : value)
    (st : state) :
  run_vzdump env (VStr s) config st = (st, Raise (Exc TypeError)).
Proof. apply full_command_raises. reflexivity. Qed.

(** X6. A cycle needs [nodes] to be a list of mappings.  When the key is
    absent the cycle raises [KeyError]; when it holds a scalar, a
    non-empty mapping (the loop would draw its keys) or a non-empty
    string (it would draw characters) the cycle raises [TypeError].  In
    each case only the start of the cycle has been logged, nothing was
    spawned and no completion is written. *)
Theorem unusable_nodes_abort_cycle (env : environment) (c : dict) (st : state) :
  nodes_unusable (dict_get "nodes" c) = true ->
  let '(st', r) := backup_job env (VDict c) st in
  (r = Raise (Exc (KeyError "nodes")) \/ r = Raise (Exc TypeError))
  /\ (dict_get "nodes" c = None <-> r = Raise (Exc (KeyError "nodes")))
  /\ trace st' = (trace st ++ [Log INFO MCycleStart])%list
  /\ spawned st' = spawned st.
Proof.
  intros H. unfold backup_job, bind at 1. cbn [log].
  unfold bind at 1. cbn [now].
  unfold bind at 1, lift at 1, subscript.
  destruct (dict_get "nodes" c) as [[|b|z|s|l|d]|]; cbn [nodes_unusable] in H.
  - unfold bind, lift. cbn [py_iter].
    repeat split; try (right; reflexivity); discriminate.
  - unfold bind, lift. cbn [py_iter].
    repeat split; try (right; reflexivity); discriminate.
  - unfold bind, lift. cbn [py_iter].
    repeat split; try (right; reflexivity); discriminate.
  - destruct s as [|a rest]; [discriminate|].
    unfold bind at 1, lift at 1. cbn [py_iter PyStr.chars map].
    unfold bind at 1. cbn [for_each]. unfold bind at 1, backup_node.
    unfold bind at 1. rewrite run_vzdump_on_text.
    repeat split; try (right; reflexivity); discriminate.
  - discriminate.
  - destruct d as [|[k v] rest]; [discriminate|].
    unfold bind at 1, lift at 1. cbn [py_iter map fst].
    unfold bind at 1. cbn [for_each]. unfold bind at 1, backup_node.
    unfold bind at 1. rewrite run_vzdump_on_text.
    repeat split; try (right; reflexivity); discriminate.
  - repeat split; try (left; reflexivity); reflexivity.
Qed.

Lemma unusable_nodes_abort_cycle_witness :
  let '(st', r) :=
    backup_job (Sample.world (VDict Scenario.nodes_by_name))
      (VDict Scenario.nodes_by_name) initial in
  r = Raise (Exc TypeError)
  /\ trace st' = [Log INFO MCycleStart]
  /\ spawned st' = 0%nat.
Proof.
  pose proof (@unusable_nodes_abort_cycle
                (Sample.world (VDict Scenario.nodes_by_name))
                Scenario.nodes_by_name initial eq_refl) as H.
  destruct (backup_job (Sample.world (VDict Scenario.nodes_by_name))
              (VDict Scenario.nodes_by_name) initial) as [st' r].
  destruct H as ([Hr|Hr] & Hiff & Ht & Hs).
  - apply Hiff in Hr. discriminate Hr.
  - repeat split; assumption.
Defined.

(** X7. A [schedule] entry that is no string (a number, a list, nothing)
    has no [split]: line 114 raises [AttributeError], which the
    [except ValueError] of line 135 does not catch.  [main] ends with the
    exception uncaught and status 1; nothing but the loading record was
    logged and no job is registered. *)
Theorem non_string_schedule_is_uncaught (env : environment) (c : dict)
    (v : value) (fuel : nat) :
  read_config env = Loaded (VDict c) ->
  dict_get "schedule" c = Some v ->
  is_str v = false ->
  let '(st', r) := main env fuel initial in
  r = Raise (Exc AttributeError)
  /\ exit_status r = Some 1
  /\ jobs st' = []
  /\ trace st' = [Log INFO (MConfigLoaded (py_str (VDict c)))].
Proof.
  intros Hload Hs Hv. rewrite (main_after_load env fuel Hload).
  unfold schedule_backup, try_except, bind, lift, subscript. rewrite Hs.
  destruct v; try discriminate Hv; repeat split.
Qed.

Lemma non_string_schedule_is_uncaught_witness :
  let '(st', r) :=
    main (Sample.world (VDict Scenario.numeric_schedule)) 2 initial in
  r = Raise (Exc AttributeError) /\ exit_status r = Some 1 /\ jobs st' = [].
Proof.
  pose proof (@non_string_schedule_is_uncaught
                (Sample.world (VDict Scenario.numeric_schedule))
                Scenario.numeric_schedule (VInt 5) 2
                eq_refl eq_refl eq_refl) as H.
  destruct (main (Sample.world (VDict Scenario.numeric_schedule)) 2 initial)
    as [st' r].
  destruct H as (Hr & Hx & Hj & _). repeat split; assumption.
Defined.

(** ** What a run leaves untouched *)

Section Stepping.

Context {A B : Type}.
Variable R : state -> state -> Prop.
Hypothesis R_refl : forall st, R st st.
Hypothesis R_trans : forall a b c, R a b -> R b c -> R a c.

Lemma steps_ret (a : A) : steps R (ret a).
Proof. intros st st' r [= <- _]. apply R_refl. Qed.

Lemma steps_raise (b : base_exception) : steps R (@raise A b).
Proof. intros st st' r [= <- _]. apply R_refl. Qed.

Lemma steps_bind (m : M A) (k : A -> M B) :
  steps R m ->
  (forall (st st' : state) (a : A), m st = (st', Ok a) -> steps R (k a)) ->
  steps R (bind m k).
Proof.
  intros Hm Hk st st' r. unfold bind.
  destruct (m st) as [st1 [a|b]] eqn:E.
  - intros H. apply R_trans with st1; [exact (Hm _ _ _ E)|].
    exact (Hk _ _ _ E _ _ _ H).
  - intros [= <- _]. exact (Hm _ _ _ E).
Qed.

Lemma steps_lift (x : result A) (k : A -> M B) :
  (forall a, x = Ok a -> steps R (k a)) -> steps R (bind (lift x) k).
Proof.
  intros Hk st st' r. unfold bind, lift. destruct x as [a|b].
  - apply Hk. reflexivity.
  - intros [= <- _]. apply R_refl.
Qed.

Lemma steps_try (body : M A) (handler : base_exception -> option (M A)) :
  steps R body ->
  (forall b h, handler b = Some h -> steps R h) ->
  steps R (try_except body handler).
Proof.
  intros Hbody Hh st st' r. unfold try_except.
  destruct (body st) as [st1 [a|b]] eqn:E.
  - intros [= <- _]. exact (Hbody _ _ _ E).
  - destruct (handler b) as [h|] eqn:Eh.
    + intros H. apply R_trans with st1; [exact (Hbody _ _ _ E)|].
      exact (Hh _ _ Eh _ _ _ H).
    + intros [= <- _]. exact (Hbody _ _ _ E).
Qed.

End Stepping.

Lemma steps_for_each {A} (R : state -> state -> Prop)
    (items : list A) (body : A -> M unit) :
  (forall st, R st st) ->
  (forall a b c, R a b -> R b c -> R a c) ->
  (forall x, steps R (body x)) -> steps R (for_each items body).
Proof.
  intros Hrefl Htrans H. induction items as [|x rest IH]; cbn [for_each].
  - apply steps_ret. exact Hrefl.
  - apply steps_bind; [exact Htrans|apply H|intros _ _ _ _; exact IH].
Qed.

(** Line 38: whatever the configuration, an assembled command starts
    with the ssh binary. *)
Lemma argv_starts_with_ssh (node_config config : value)
    (command : list value) (argv : list string) :
  full_command node_config config = Ok command ->
  as_strings command = Ok argv ->
  hd_error argv = Some "/usr/bin/ssh".
Proof.
  unfold full_command, ssh_command. intros Hc Ha.
  destruct (subscript node_config "fqdn"); [|discriminate].
  destruct (subscript config "mailto"); [|discriminate].
  destruct (subscript config "fleecing"); [|discriminate].
  destruct (subscript config "bwlimit"); [|discriminate].
  destruct (subscript config "pbs_storage"); [|discriminate].
  destruct (subscript config "notes_template"); [|discriminate].
  destruct (subscript config "mailnotification"); [|discriminate].
  destruct (subscript node_config "shortname"); [|discriminate].
  cbn [rbind] in Hc.
  destruct (exclude_list node_config config); [|discriminate].
  cbn [rbind] in Hc.
  destruct (exclude_args _); [|discriminate].
  cbn [rbind app] in Hc. injection Hc as <-.
  cbn [as_strings] in Ha.
  match type of Ha with
  | rbind ?x _ = _ => destruct x; [|discriminate]
  end.
  cbn [rbind] in Ha. injection Ha as <-. reflexivity.
Qed.

Section Walk.

Variable env : environment.
Variable R : state -> state -> Prop.
Hypothesis R_refl : forall st, R st st.
Hypothesis R_trans : forall a b c, R a b -> R b c -> R a c.
Hypothesis R_log : forall lvl m st, R st (emit (Log lvl m) st).
Hypothesis R_now : forall st, R st (fst (now env st)).
Hypothesis R_launch :
  forall argv st,
    hd_error argv = Some "/usr/bin/ssh" -> R st (launched argv 1200 st).
Hypothesis R_poll :
  forall st,
    R st {| trace := trace st; clock_reads := clock_reads st;
            spawned := spawned st; polls := S (polls st);
            sleeps := sleeps st; jobs := jobs st |}.

Lemma log_steps (lvl : level) (m : message) : steps R (log lvl m).
Proof. intros st st' r [= <- _]. apply R_log. Qed.

Lemma now_steps : steps R (now env).
Proof.
  intros st st' r H. change st' with (fst (st', r)). rewrite <- H.
  apply R_now.
Qed.

Lemma subprocess_run_steps (argv : list string) :
  hd_error argv = Some "/usr/bin/ssh" ->
  steps R (subprocess_run env argv 1200).
Proof.
  intros Hhd st st' r. unfold subprocess_run.
  destruct (process env (spawned st)) as [elapsed rc out err|s].
  - destruct (1200 <? elapsed); [intros [= <- _]; apply R_launch, Hhd|].
    destruct (rc =? 0); intros [= <- _]; apply R_launch, Hhd.
  - intros [= <- _]. apply R_launch, Hhd.
Qed.

Lemma run_vzdump_steps (node_config config : value) :
  steps R (run_vzdump env node_config config).
Proof.
  unfold run_vzdump.
  apply steps_lift; [exact R_refl|intros command Hc].
  apply steps_lift; [exact R_refl|intros shortname _].
  apply steps_lift; [exact R_refl|intros fqdn _].
  apply steps_bind; [exact R_trans|apply log_steps|intros _ _ _ _].
  apply steps_lift; [exact R_refl|intros argv Ha].
  apply steps_bind; [exact R_trans|apply log_steps|intros _ _ _ _].
  apply steps_try; [exact R_trans| |].
  - apply steps_bind; [exact R_trans| |intros _ _ output _].
    + apply subprocess_run_steps. exact (argv_starts_with_ssh _ _ Hc Ha).
    + apply steps_bind; [exact R_trans|apply log_steps|intros _ _ _ _].
      apply steps_ret, R_refl.
  - intros b h. destruct b as [e| |code]; [|discriminate|discriminate].
    destruct e; intros [= <-];
      repeat (apply steps_bind;
              [exact R_trans|apply log_steps|intros _ _ _ _]);
      apply steps_ret, R_refl.
Qed.

Lemma backup_job_steps (config : value) : steps R (backup_job env config).
Proof.
  unfold backup_job.
  apply steps_bind; [exact R_trans|apply log_steps|intros _ _ _ _].
  apply steps_bind; [exact R_trans|apply now_steps|intros _ _ start_time _].
  apply steps_lift; [exact R_refl|intros nodes _].
  apply steps_lift; [exact R_refl|intros items _].
  apply steps_bind; [exact R_trans| |intros _ _ _ _].
  - apply steps_for_each; [exact R_refl|exact R_trans|].
    intros node_config. unfold backup_node.
    apply steps_bind; [exact R_trans|apply run_vzdump_steps|intros _ _ ok _].
    destruct ok; [apply steps_ret, R_refl|].
    apply steps_lift; [exact R_refl|intros shortname _]. apply log_steps.
  - apply steps_bind; [exact R_trans|apply now_steps|intros _ _ end_time _].
    apply log_steps.
Qed.

Lemma run_pending_steps : steps R (run_pending env).
Proof.
  intros st st' r. unfold run_pending.
  destruct (poll_signal env (polls st)) as [s|].
  - intros [= <- _]. apply R_poll.
  - destruct (pending env (polls st)).
    + intros H. eapply R_trans; [apply R_poll|].
      revert H. apply steps_for_each; [exact R_refl|exact R_trans|].
      intros job. apply backup_job_steps.
    + intros [= <- _]. apply R_poll.
Qed.

Hypothesis R_sleep :
  forall seconds st, seconds = 5 \/ seconds = 10 ->
                     R st (fst (sleep env seconds st)).

Lemma sleep_steps (seconds : Z) :
  seconds = 5 \/ seconds = 10 -> steps R (sleep env seconds).
Proof.
  intros Hs st st' r H. change st' with (fst (st', r)). rewrite <- H.
  apply R_sleep, Hs.
Qed.

Lemma main_loop_steps (fuel : nat) : steps R (main_loop env fuel).
Proof.
  induction fuel as [|fuel IH]; cbn [main_loop].
  - apply steps_ret, R_refl.
  - apply steps_bind; [exact R_trans| |intros _ _ f _].
    + unfold loop_turn. apply steps_try; [exact R_trans| |].
      * apply steps_bind; [exact R_trans| |intros _ _ _ _;
                                            apply steps_ret, R_refl].
        unfold poll_once.
        apply steps_bind; [exact R_trans|apply now_steps|intros _ _ t _].
        apply steps_bind; [exact R_trans|apply log_steps|intros _ _ _ _].
        apply steps_bind; [exact R_trans|apply run_pending_steps|
                            intros _ _ _ _].
        apply sleep_steps. right. reflexivity.
      * intros b h. destruct b as [e| |code]; [| |discriminate];
          intros [= <-];
          (apply steps_bind; [exact R_trans|apply log_steps|intros _ _ _ _]);
          apply steps_ret, R_refl.
    + destruct f; [exact IH|apply steps_ret, R_refl].
Qed.

End Walk.

Lemma naps_app (a b : list event) :
  naps (a ++ b) = (naps a ++ naps b)%list.
Proof.
  induction a as [|e a IH]; simpl; [reflexivity|].
  destruct e; simpl; rewrite IH; reflexivity.
Qed.

Lemma same_jobs_trans (a b c : state) :
  same_jobs a b -> same_jobs b c -> same_jobs a c.
Proof. unfold same_jobs. congruence. Qed.

(** X8. The registry is written once.  Neither a cycle nor any number
    of turns of the polling loop adds, drops or replaces a job, whether
    the turns succeed, fail or are interrupted: the loop ends with the
    registry it started with. *)
Theorem registry_is_stable (env : environment) (st : state) :
  (forall config : value,
     jobs (fst (backup_job env config st)) = jobs st)
  /\ (forall fuel : nat, jobs (fst (main_loop env fuel st)) = jobs st).
Proof.
  split.
  - intros config.
    destruct (backup_job env config st) as [st' r] eqn:E.
    change (same_jobs st (fst (st', r))). revert E.
    apply backup_job_steps; try (intros; reflexivity).
    exact same_jobs_trans.
  - intros fuel.
    destruct (main_loop env fuel st) as [st' r] eqn:E.
    change (same_jobs st (fst (st', r))). revert E.
    apply main_loop_steps; try (intros; reflexivity).
    + exact same_jobs_trans.
    + intros seconds st0 _. unfold sleep.
      destruct (sleep_signal env (sleeps st0)); reflexivity.
Qed.

Lemma no_nap_trans (a b c : state) : no_nap a b -> no_nap b c -> no_nap a c.
Proof. unfold no_nap. intros [H1 H2] [H3 H4]. split; congruence. Qed.

Lemma run_pending_takes_no_nap (env : environment) :
  steps no_nap (run_pending env).
Proof.
  apply run_pending_steps.
  - intros st. split; reflexivity.
  - exact no_nap_trans.
  - intros lvl m st. split; [reflexivity|].
    cbn [emit trace]. rewrite naps_app. apply app_nil_r.
  - intros st. split; reflexivity.
  - intros argv st _. split; [reflexivity|].
    cbn [launched trace]. rewrite naps_app. apply app_nil_r.
  - intros st. split; reflexivity.
Qed.

(** X9. A turn pauses ten seconds only after a poll that returned.  When
    the poll raises (a failing cycle, a fault in the scheduler) the
    [sleep] of line 150 is skipped, so the next turn follows at once;
    the only other way a turn raises is the pause itself being cut
    short. *)
Theorem failed_poll_skips_pause (env : environment) (st : state) :
  let '(st', r) := poll_once env st in
  match sleep_signal env (sleeps st), r with
  | None, Ok _ => naps (trace st') = (naps (trace st) ++ [10])%list
  | None, Raise _ => naps (trace st') = naps (trace st)
  | Some _, Ok _ => False
  | Some s, Raise b =>
      naps (trace st') = naps (trace st)
      \/ (naps (trace st') = (naps (trace st) ++ [10])%list
          /\ b = raised_by s)
  end.
Proof.
  unfold poll_once, bind at 1. cbn [now].
  unfold bind at 1. cbn [log].
  unfold bind at 1.
  match goal with
  | |- context [run_pending env ?s] =>
      destruct (run_pending env s) as [s2 [u|b]] eqn:E;
      destruct (@run_pending_takes_no_nap env _ _ _ E) as [Hs Hn]
  end; cbn [emit trace sleeps] in Hs, Hn;
    rewrite naps_app in Hn; cbn [naps] in Hn; rewrite app_nil_r in Hn.
  - unfold sleep. rewrite Hs.
    destruct (sleep_signal env (sleeps st)) as [s|]; cbn [trace];
      rewrite naps_app, Hn.
    + right. split; reflexivity.
    + reflexivity.
  - destruct (sleep_signal env (sleeps st)) as [s|]; [left|]; exact Hn.
Qed.

Example failing_cycle_spins :
  let '(st', _) := main (Sample.world (VDict Sample.broken)) 3 initial in
  naps (trace st') = [5] /\ polls st' = 3%nat.
Proof. vm_compute. split; reflexivity. Qed.

(** ** What the orchestrator does to the outside *)

Lemma extends_refl (Q : event -> Prop) (st : state) : extends_with Q st st.
Proof. exists []. split; [symmetry; apply app_nil_r|constructor]. Qed.

Lemma extends_trans (Q : event -> Prop) (a b c : state) :
  extends_with Q a b -> extends_with Q b c -> extends_with Q a c.
Proof.
  intros (x & Hx & Qx) (y & Hy & Qy). exists (x ++ y)%list. split.
  - rewrite Hy, Hx, app_assoc. reflexivity.
  - apply Forall_app. split; assumption.
Qed.

Lemma extends_one (Q : event -> Prop) (e : event) (st st' : state) :
  Q e -> trace st' = (trace st ++ [e])%list -> extends_with Q st st'.
Proof.
  intros He Ht. exists [e]. split; [exact Ht|]. constructor; [exact He|constructor].
Qed.

Lemma extends_none (Q : event -> Prop) (st st' : state) :
  trace st' = trace st -> extends_with Q st st'.
Proof.
  intros Ht. exists []. split; [rewrite Ht; symmetry; apply app_nil_r|constructor].
Qed.

Section Outside.

Variable env : environment.

Let R := extends_with allowed.

Lemma allowed_log (lvl : level) (m : message) : steps R (log lvl m).
Proof.
  intros st st' r [= <- _]. apply extends_one with (Log lvl m);
    [exact I|reflexivity].
Qed.

Lemma allowed_do (r : rule) (config : value) : steps R (Schedule.do r config).
Proof. intros st st' x [= <- _]. apply extends_none. reflexivity. Qed.

Lemma allowed_sleep (seconds : Z) :
  seconds = 5 \/ seconds = 10 -> steps R (sleep env seconds).
Proof.
  intros Hs st st' r. unfold sleep.
  destruct (sleep_signal env (sleeps st)); intros [= <- _];
    apply extends_one with (Sleep seconds); solve [exact Hs|reflexivity].
Qed.

Lemma allowed_load_config : steps R (load_config env).
Proof.
  unfold load_config. apply steps_try; [apply extends_trans| |].
  - intros st st' r. destruct (read_config env); intros [= <- _];
      apply extends_refl.
  - intros b h. destruct b as [e| |code]; [|discriminate|discriminate].
    destruct e; intros [= <-];
      (apply steps_bind; [apply extends_trans|apply allowed_log|
                          intros _ _ _ _]);
      apply steps_raise, extends_refl.
Qed.

Lemma allowed_schedule_backup (config : value) :
  steps R (schedule_backup env config).
Proof.
  unfold schedule_backup. apply steps_try; [apply extends_trans| |].
  - apply steps_lift; [apply extends_refl|intros sched _].
    apply steps_lift; [apply extends_refl|intros parts _].
    destruct (negb (List.length parts =? 5)%nat);
      [apply steps_raise, extends_refl|].
    destruct parts as [|minute [|hour [|dom [|month [|dow [|x rest]]]]]];
      try (apply steps_raise, extends_refl).
    destruct (String.eqb hour "*" && String.eqb minute "*")%bool.
    + apply steps_bind; [apply extends_trans|apply allowed_do|intros _ _ _ _].
      apply allowed_log.
    + destruct (String.eqb hour "*").
      * apply steps_lift; [apply extends_refl|intros job _].
        apply steps_bind; [apply extends_trans|apply allowed_do|
                            intros _ _ _ _].
        apply allowed_log.
      * apply steps_lift; [apply extends_refl|intros job _].
        apply steps_bind; [apply extends_trans|apply allowed_do|
                            intros _ _ _ _].
        apply allowed_log.
  - intros b h. destruct b as [e| |code]; [|discriminate|discriminate].
    destruct (is_value_error env e); [|discriminate]. intros [= <-].
    apply steps_lift; [apply extends_refl|intros sched _].
    apply steps_bind; [apply extends_trans|apply allowed_log|intros _ _ _ _].
    apply steps_raise, extends_refl.
Qed.

Lemma allowed_main_loop (fuel : nat) : steps R (main_loop env fuel).
Proof.
  apply main_loop_steps.
  - apply extends_refl.
  - apply extends_trans.
  - intros lvl m st. apply extends_one with (Log lvl m);
      [exact I|reflexivity].
  - intros st. apply extends_none. reflexivity.
  - intros argv st Hhd. apply extends_one with (Spawn argv 1200);
      [split; [reflexivity|exact Hhd]|reflexivity].
  - intros st. apply extends_none. reflexivity.
  - intros seconds st Hs. unfold sleep.
    destruct (sleep_signal env (sleeps st));
      apply extends_one with (Sleep seconds); solve [exact Hs|reflexivity].
Qed.

Lemma allowed_main (fuel : nat) : steps R (main env fuel).
Proof.
  unfold main, startup.
  apply steps_bind; [apply extends_trans| |intros _ _ _ _].
  - apply steps_bind; [apply extends_trans|apply allowed_load_config|
                        intros _ _ config _].
    apply steps_bind; [apply extends_trans|apply allowed_log|intros _ _ _ _].
    apply steps_bind; [apply extends_trans|apply allowed_schedule_backup|
                        intros _ _ _ _].
    apply steps_ret, extends_refl.
  - apply steps_bind; [apply extends_trans|apply allowed_log|intros _ _ _ _].
    apply steps_bind; [apply extends_trans| |intros _ _ _ _].
    + apply allowed_sleep. left. reflexivity.
    + apply allowed_main_loop.
Qed.

End Outside.

(** X10. Whatever the configuration and the environment, and however
    long the process runs, it does three things to the outside and no
    other: it writes log records, it runs [/usr/bin/ssh] under the
    1200-second timeout, and it pauses for 5 or 10 seconds.  No other
    program is ever started and no command runs without the timeout. *)
Theorem only_ssh_and_pauses (env : environment) (fuel : nat) :
  let '(st', _) := main env fuel initial in
  Forall allowed (trace st').
Proof.
  destruct (main env fuel initial) as [st' r] eqn:E.
  destruct (@allowed_main env fuel _ _ _ E) as (added & Ht & Hq).
  rewrite Ht. exact Hq.
Qed.

(** ** Counting what a cycle does *)

(** Every way [run_vzdump] can end. *)
Lemma run_vzdump_cases (env : environment) (node_config config : value)
    (st : state) :
  let '(st', r) := run_vzdump env node_config config st in
  (spawns (trace st') = spawns (trace st)
   /\ exists b, r = Raise b)
  \/ (exists argv,
        spawns (trace st') = (spawns (trace st) ++ [(argv, 1200)])%list
        /\ ((r = Ok true
             /\ logged ERROR (trace st') = logged ERROR (trace st))
            \/ (r = Ok false
                /\ exists m errs,
                     logged ERROR (trace st')
                     = (logged ERROR (trace st) ++ m :: errs)%list)
            \/ r = Raise KeyboardInterrupt)).
Proof.
  destruct (full_command node_config config) as [command|b] eqn:Hc.
  2:{ rewrite (full_command_raises env _ _ st Hc). left.
      split; [reflexivity|exists b; reflexivity]. }
  pose proof (as_strings_ok command) as Hok.
  destruct (as_strings command) as [argv|b] eqn:Ha.
  2:{ destruct Hok as [Hno _].
      destruct (@run_vzdump_join_fails env _ _ _ st Hc Hno)
        as (sn & fq & _ & _ & ->).
      left. cbn [emit trace]. rewrite spawns_app. simpl.
      rewrite app_nil_r. split; [reflexivity|eexists; reflexivity]. }
  destruct (full_command_reads _ _ Hc) as (fqdn & sn & Hf & Hs).
  rewrite (run_vzdump_unfold env _ _ st Hc Ha Hs Hf). cbn zeta.
  destruct (process env (spawned st)) as [elapsed rc out err|[e|]].
  - destruct (1200 <? elapsed); [|destruct (rc =? 0)];
      right; exists argv;
      cbn [emit trace]; rewrite !spawns_app, !logged_app; simpl;
      rewrite ?app_nil_r; (split; [reflexivity|]).
    + right. left. split; [reflexivity|]. eexists. exists []. reflexivity.
    + left. split; reflexivity.
    + right. left. split; [reflexivity|]. eexists. eexists.
      rewrite <- !app_assoc. reflexivity.
  - destruct e; right; exists argv;
      cbn [emit trace]; rewrite !spawns_app, !logged_app; simpl;
      rewrite ?app_nil_r; (split; [reflexivity|]);
      right; left; (split; [reflexivity|]); eexists; eexists;
      rewrite <- ?app_assoc; reflexivity.
  - right. exists argv. cbn [trace]. rewrite !spawns_app. cbn [emit trace].
    rewrite !spawns_app. simpl. rewrite !app_nil_r.
    split; [reflexivity|]. right. right. reflexivity.
Qed.

(** X11. [run_vzdump] returns a flag only after one and only one command
    was spawned, under the 1200-second timeout; [True] comes with no
    error record, [False] never comes without one. *)
Theorem failure_is_never_silent (env : environment)
    (node_config config : value) (st : state) :
  let '(st', r) := run_vzdump env node_config config st in
  forall ok : bool,
    r = Ok ok ->
    (exists argv,
       spawns (trace st') = (spawns (trace st) ++ [(argv, 1200)])%list)
    /\ (if ok
        then logged ERROR (trace st') = logged ERROR (trace st)
        else exists m errs,
               logged ERROR (trace st')
               = (logged ERROR (trace st) ++ m :: errs)%list).
Proof.
  pose proof (run_vzdump_cases env node_config config st) as H.
  destruct (run_vzdump env node_config config st) as [st' r].
  intros ok ->.
  destruct H as [[_ [b Hb]]|(argv & Hsp & [[Hr He]|[[Hr He]|Hr]])];
    try discriminate.
  - injection Hr as ->. split; [exists argv; exact Hsp|exact He].
  - injection Hr as ->. split; [exists argv; exact Hsp|exact He].
Qed.

Lemma failure_is_never_silent_witness :
  let '(st', r) :=
    run_vzdump (Sample.world Sample.config) Sample.pve1 Sample.config
      (launched [] 0 initial) in
  r = Ok false
  /\ exists m errs, logged ERROR (trace st') = m :: errs.
Proof.
  pose proof (@failure_is_never_silent (Sample.world Sample.config)
                Sample.pve1 Sample.config (launched [] 0 initial)) as H.
  destruct (run_vzdump (Sample.world Sample.config) Sample.pve1 Sample.config
              (launched [] 0 initial)) as [st' r] eqn:E.
  assert (Hr : r = Ok false).
  { vm_compute in E. injection E as _ <-. reflexivity. }
  split; [exact Hr|]. exact (proj2 (H false Hr)).
Defined.

Lemma backup_node_spawns (env : environment) (config node_config : value)
    (st : state) :
  exists extra : list (list string * Z),
    spawns (trace (fst (backup_node env config node_config st)))
    = (spawns (trace st) ++ extra)%list
    /\ (List.length extra <= 1)%nat.
Proof.
  unfold backup_node, bind.
  pose proof (run_vzdump_cases env node_config config st) as H.
  destruct (run_vzdump env node_config config st) as [st1 r].
  assert (Hone : exists extra,
             spawns (trace st1) = (spawns (trace st) ++ extra)%list
             /\ (List.length extra <= 1)%nat).
  { destruct H as [[Hsp _]|(argv & Hsp & _)].
    - exists []. rewrite app_nil_r. split; [exact Hsp|auto].
    - exists [(argv, 1200)]. split; [exact Hsp|auto]. }
  destruct r as [[|]|b]; cbn [fst]; try exact Hone.
  unfold lift.
  destruct (py_get node_config "shortname" (VStr "N/A")) as [v|b];
    cbn [fst log emit trace]; [|exact Hone].
  rewrite spawns_app. simpl. rewrite app_nil_r. exact Hone.
Qed.

Lemma for_each_spawns (env : environment) (config : value)
    (items : list value) :
  forall st : state,
    exists extra : list (list string * Z),
      spawns (trace (fst (for_each items (backup_node env config) st)))
      = (spawns (trace st) ++ extra)%list
      /\ (List.length extra <= List.length items)%nat.
Proof.
  induction items as [|x rest IH]; intros st.
  - exists []. cbn. rewrite app_nil_r. split; [reflexivity|auto].
  - cbn [for_each]. unfold bind.
    destruct (backup_node_spawns env config x st) as (e1 & H1 & L1).
    destruct (backup_node env config x st) as [st1 [u|b]]; cbn [fst] in H1.
    + destruct (IH st1) as (e2 & H2 & L2).
      exists (e1 ++ e2)%list. rewrite H2, H1, app_assoc.
      split; [reflexivity|]. rewrite length_app. cbn [List.length]. lia.
    + exists e1. cbn [fst]. split; [exact H1|]. cbn [List.length]. lia.
Qed.

(** X12. A cycle never spawns more than one command per entry of the
    [nodes] list, in any environment and for any configuration: a
    failing node is not retried, and commands already spawned stay in
    the trace. *)
Theorem cycle_spawns_at_most_one_per_node (env : environment) (c : dict)
    (nodes : list value) (st : state) :
  dict_get "nodes" c = Some (VList nodes) ->
  exists extra : list (list string * Z),
    spawns (trace (fst (backup_job env (VDict c) st)))
    = (spawns (trace st) ++ extra)%list
    /\ (List.length extra <= List.length nodes)%nat.
Proof.
  intros Hnodes.
  unfold backup_job, bind at 1. cbn [log].
  unfold bind at 1. cbn [now].
  unfold bind at 1, lift at 1, subscript. rewrite Hnodes.
  unfold bind at 1, lift at 1. cbn [py_iter].
  unfold bind at 1.
  match goal with
  | |- context [for_each nodes _ ?s] =>
      destruct (for_each_spawns env (VDict c) nodes s) as (extra & Hsp & Hl);
      destruct (for_each nodes (backup_node env (VDict c)) s) as [st1 [u|b]]
  end; cbn [fst emit trace] in Hsp; rewrite spawns_app in Hsp;
    simpl in Hsp; rewrite app_nil_r in Hsp; exists extra.
  - unfold bind. cbn [now log emit fst trace].
    rewrite spawns_app, Hsp. simpl. rewrite app_nil_r.
    split; [reflexivity|exact Hl].
  - cbn [fst]. split; [exact Hsp|exact Hl].
Qed.

Lemma cycle_spawns_at_most_one_per_node_witness :
  exists extra : list (list string * Z),
    spawns (trace (fst (backup_job (Sample.world (VDict Sample.broken))
                          (VDict Sample.broken) initial)))
    = extra
    /\ (List.length extra <= 3)%nat.
Proof.
  exact (@cycle_spawns_at_most_one_per_node
           (Sample.world (VDict Sample.broken)) Sample.broken
           [Sample.pve1; Sample.nameless; Sample.pve3] initial eq_refl).
Defined.
